(** * Rosetta-Stonks: the progress-simulation engine of [rosetta-stone-ez.py]

    A shallow embedding of the Python program and the properties of its
    discovery, time-budget, answer-formatting and submission code.

    Conventions of the embedding.
    - A Python float is an IEEE 754 binary64 number.  A finite float is
      embedded as the rational it denotes ([Q]), and every operation on
      floats rounds its exact result to the nearest binary64 number, ties
      to even ([round64]).  The embedding covers the runs whose floats
      stay finite: infinities and NaN, and a result beyond the largest
      binary64 number, are left out.  [int(x)] is truncation towards
      zero.
    - Data decoded from the server is typed after the shape the program's
      GraphQL queries ask for; values the program only passes along
      (answers, additional content, error lists) stay untyped [json].
    - A Python call either returns, raises, or leaves the process through
      [exit(code)]: the three constructors of [result].
    - [requests.post], [random.uniform], [uuid.uuid4] and [datetime.now] are
      oracles; every exchange with the network is recorded in the state.
      The transport always hands back a status code and a parsed body.
      The run does not thread the console or [time.sleep]; the functions
      that build the printed lines are modelled on their own. *)

From Stdlib Require Import String Ascii List Bool ZArith QArith Lia Lqa.
From Stdlib Require Import Qabs Qround Qpower.
From Stdlib Require Import DecimalString.
Import ListNotations.

Local Open Scope string_scope.
Local Open Scope list_scope.
Local Open Scope Z_scope.

(** ** Python values and outcomes *)

#[warnings="-register-all"]
Inductive json : Type :=
| JNull
| JBool (b : bool)
| JNum (q : Q)
| JStr (s : string)
| JArr (items : list json)
| JObj (fields : list (string * json)).

Inductive exn : Type :=
| ValueError
| ZeroDivisionError
| IndexError
| TypeError
| KeyError (key : string).

Inductive result (A : Type) : Type :=
| Returns (a : A)
| Raises (e : exn)
| Exits (code : Z).

Arguments Returns {A} a.
Arguments Raises {A} e.
Arguments Exits {A} code.

(** ** Data decoded from the server *)

Record Card := { card_id : string }.

(** One element of [step["content"]]: a JSON object in which each of the
    two keys the program tests may be present or not. *)
Record Content := {
  additionalContent : option json;
  carousel : option (list (list Card))
}.

Record Step := {
  step_type : string;
  step_content : list Content;
  step_correct : list json;
  activityStepId : string
}.

Record Title := { locale : string; text : string }.

Record Activity := {
  activityId : string;
  titles : list Title;
  steps : list Step
}.

(** An entry of [course["sequences"]] in the list of assigned courses. *)
Record Sequence := { seq_id : string; seq_title : string }.

Record Course := {
  courseId : string;
  course_title : string;
  sequences : list Sequence
}.

(** An entry of the progress report. *)
Record SequenceProgress := { sp_id : string; percentComplete : Q }.

Record CourseProgress := {
  cp_courseId : string;
  cp_sequences : list SequenceProgress
}.

(** ** Values the program builds *)

Record Answer := { answer : json; correct : bool }.

Record Plan := {
  fragmented : bool;
  answers : list Answer;
  title : string
}.

Record Lesson := {
  lesson_id : string;
  lesson_title : string;
  slug : string
}.

Record CourseInfo := {
  info_title : string;
  lessons : list Lesson
}.

(** A Python [dict] with string keys: insertion ordered, and an assignment
    to a key already present replaces the value where the key stands. *)
Definition dict (V : Type) : Type := list (string * V).

Fixpoint dict_get {V : Type} (d : dict V) (k : string) : option V :=
  match d with
  | [] => None
  | (k', v) :: rest => if (k' =? k)%string then Some v else dict_get rest k
  end.

Fixpoint dict_set {V : Type} (d : dict V) (k : string) (v : V) : dict V :=
  match d with
  | [] => [(k, v)]
  | (k', v') :: rest =>
      if (k' =? k)%string then (k, v) :: rest else (k', v') :: dict_set rest k v
  end.

Definition dict_keys {V : Type} (d : dict V) : list string := map fst d.
Definition dict_values {V : Type} (d : dict V) : list V := map snd d.

(** ** [format_answers] (lines 15-59) *)

Definition right_answer (a : json) : Answer := {| answer := a; correct := true |}.

Definition card_answer (card : Card) : Answer :=
  {| answer := JStr ("SS:" ++ card_id card ++ ":1:false")%string; correct := true |}.

(** The [return] statements sit inside the [if]/[elif] of the "card" arm;
    when neither test holds the function falls off its end and the caller
    receives [None]. *)
Definition format_answers (step : Step) : result (option Plan) :=
  if (step_type step =? "card")%string then
    match step_content step with
    | [] => Raises IndexError
    | first :: _ =>
        match additionalContent first with
        | Some _ =>
            Returns (Some {| fragmented := false;
                             answers := map right_answer (step_correct step);
                             title := "Démonstration" |})
        | None =>
            match carousel first with
            | Some items =>
                let cards := concat items in
                Returns (Some {| fragmented := true;
                                 answers := map card_answer cards;
                                 title := "Vocabulaire" |})
            | None => Returns None
            end
        end
    end
  else
    let res_title :=
      if (step_type step =? "multipleChoice")%string then "Choix multiple"
      else if (step_type step =? "sequencing")%string then "Organiser"
      else if (step_type step =? "cloze")%string then "Remplissez les blancs"
      else "Module inconnu" in
    Returns (Some {| fragmented := false;
                     answers := map right_answer (step_correct step);
                     title := res_title |}).

(** ** [get_lesson_progress] (lines 62-70) *)

Fixpoint find_sequence (seqs : list SequenceProgress) (lesson : string)
  : option Q :=
  match seqs with
  | [] => None
  | sequence :: rest =>
      if (sp_id sequence =? lesson)%string
      then Some (percentComplete sequence)
      else find_sequence rest lesson
  end.

Fixpoint get_lesson_progress (progress : list CourseProgress)
    (course_id lesson : string) : Q :=
  match progress with
  | [] => 0%Q
  | course :: rest =>
      if negb (cp_courseId course =? course_id)%string
      then get_lesson_progress rest course_id lesson
      else match find_sequence (cp_sequences course) lesson with
           | Some pc => pc
           | None => get_lesson_progress rest course_id lesson
           end
  end.

(** ** The network: requests, responses, and their decoding *)

Definition USER_AGENT : string :=
  "Mozilla/5.0 (Windows NT 10.0; Win64; x64) AppleWebKit/537.36 (KHTML, like Gecko) Chrome/114.0.0.0 Safari/537.36".

(** The single element of ["messages"] in an [AddProgress] payload
    (lines 246-259). *)
Record Message := {
  userAgent : string;
  msg_courseId : string;
  msg_sequenceId : string;
  msg_version : Z;
  msg_activityId : string;
  activityAttemptId : string;
  msg_activityStepId : string;
  activityStepAttemptId : string;
  msg_answers : list Answer;
  score : Z;
  skip : bool;
  durationMs : Z;
  endTimestamp : string
}.

Inductive Operation : Type :=
| getCoursesAndProgress (query_locale : string)
| getSequence (course_id sequenceSlug query_locale : string)
| AddProgress (userId : string) (messages : list Message).

Inductive Request : Type :=
| TokenRequest (username password : string)
| GraphQL (bearer : string) (op : Operation).

Inductive Data : Type :=
| CoursesAndProgress (assignedCourses : list Course)
    (progress : list CourseProgress)
| SequenceData (sequence : option (list Activity))
| ProgressData.

Inductive Body : Type :=
| TokenBody (userId access_token : string)
| GraphQLBody (data : option Data) (errors : option (list json)).

(** What the transport hands back: a status line and the parsed body,
    [json_body rep] standing for [rep.json()]. *)
Record Response := {
  status_code : Z;
  reason : string;
  json_body : Body
}.

Definition Exchange : Type := Request * Response.

Definition get_data (b : Body) : result Data :=
  match b with
  | GraphQLBody (Some d) _ => Returns d
  | _ => Raises (KeyError "data")
  end.

Definition get_progress (d : Data) : result (list CourseProgress) :=
  match d with
  | CoursesAndProgress _ progress => Returns progress
  | _ => Raises (KeyError "progress")
  end.

Definition get_assignedCourses (d : Data) : result (list Course) :=
  match d with
  | CoursesAndProgress assigned _ => Returns assigned
  | _ => Raises (KeyError "assignedCourses")
  end.

(** [rep_json['data']['sequence']['activities']]: a [null] sequence cannot
    be subscripted. *)
Definition get_activities (d : Data) : result (list Activity) :=
  match d with
  | SequenceData (Some activities) => Returns activities
  | SequenceData None => Raises TypeError
  | _ => Raises (KeyError "sequence")
  end.

Definition get_userId (b : Body) : result string :=
  match b with
  | TokenBody user_id _ => Returns user_id
  | _ => Raises (KeyError "userId")
  end.

Definition get_access_token (b : Body) : result string :=
  match b with
  | TokenBody _ token => Returns token
  | _ => Raises (KeyError "access_token")
  end.

(** ['errors' in response] *)
Definition has_errors (b : Body) : bool :=
  match b with
  | GraphQLBody _ (Some _) => true
  | _ => false
  end.

(** ** Arithmetic on Python numbers *)

(** *** Binary64 rounding *)

(** The integer nearest to [y]; of two equally near, the even one. *)
Definition nearest_even (y : Q) : Z :=
  let q := Qfloor y in
  match (y - inject_Z q ?= 1 # 2)%Q with
  | Lt => q
  | Gt => q + 1
  | Eq => if Z.even q then q else q + 1
  end.

(** For [x > 0], the exponent [k] with [2 ^ k <= x < 2 ^ (k + 1)]. *)
Definition floor_log2 (x : Q) : Z :=
  let k := Z.log2 (Qnum x) - Z.log2 (Zpos (Qden x)) in
  if Qle_bool (2 ^ k) x then k else k - 1.

(** The binary64 number nearest to [x > 0]: a multiple of [2 ^ e] where
    [e] leaves 53 significant bits, and is no less than -1074 (the
    subnormal numbers). *)
Definition round_pos (x : Q) : Q :=
  let e := Z.max (floor_log2 x - 52) (-1074) in
  (inject_Z (nearest_even (x / 2 ^ e)) * 2 ^ e)%Q.

Definition round64 (x : Q) : Q :=
  match (x ?= 0)%Q with
  | Eq => 0%Q
  | Gt => round_pos x
  | Lt => (- round_pos (- x))%Q
  end.

(** The operations [x * y], [x + y] and [x / y] on floats. *)
Definition fmul (x y : Q) : Q := round64 (x * y).
Definition fadd (x y : Q) : Q := round64 (x + y).
Definition fdiv (x y : Q) : Q := round64 (x / y).

(** The float an integer operand is converted to. *)
Definition float_of_nat (n : nat) : Q := round64 (inject_Z (Z.of_nat n)).

(** Half the distance between 1 and the next float, and half the
    smallest positive float: the relative and the absolute error of one
    rounding. *)
Definition unit_roundoff : Q := 1 # 9007199254740992.
Definition tiny : Q := 2 ^ (-1075).

(** *** The operations of the program *)

(** [int(x)]: truncation towards zero. *)
Definition int (x : Q) : Z := Z.quot (Qnum x) (Zpos (Qden x)).

(** [x / n] for a float [x] and the integer [n = len(...)]. *)
Definition py_div (x : Q) (n : nat) : result Q :=
  match n with
  | O => Raises ZeroDivisionError
  | S _ => Returns (fdiv x (float_of_nat n))
  end.

(** [int(hours * 60 * 60 * 1000)], line 258. *)
Definition milliseconds (hours : Q) : Z :=
  int (fmul (fmul (fmul hours 60) 60) 1000).

(** ** The state of a run *)

Record State := {
  version : Z;                  (* [self.version] *)
  exchanges : list Exchange;    (* every [requests.post], oldest first *)
  uniform_calls : nat;
  uuid4_calls : nat;
  now_calls : nat
}.

Definition M (A : Type) : Type := State -> result A * State.

Definition ret {A : Type} (a : A) : M A := fun st => (Returns a, st).

Definition bind {A B : Type} (m : M A) (k : A -> M B) : M B :=
  fun st =>
    match m st with
    | (Returns a, st') => k a st'
    | (Raises e, st') => (Raises e, st')
    | (Exits code, st') => (Exits code, st')
    end.

Definition lift {A : Type} (r : result A) : M A := fun st => (r, st).

Definition exit {A : Type} (code : Z) : M A := lift (Exits code).

Declare Scope py_scope.
Delimit Scope py_scope with py.
Notation "x <- m ;; k" := (bind m (fun x => k))
  (at level 100, m at next level, right associativity) : py_scope.
Notation "m ;;; k" := (bind m (fun _ => k))
  (at level 100, right associativity) : py_scope.
Local Open Scope py_scope.

(** [for x in xs: body(x)] *)
Fixpoint for_each {X : Type} (xs : list X) (body : X -> M unit) : M unit :=
  match xs with
  | [] => ret tt
  | x :: rest => body x ;;; for_each rest body
  end.

(** [for x in xs: acc = body(acc, x)] *)
Fixpoint for_fold {X A : Type} (xs : list X) (acc : A) (body : A -> X -> M A)
  : M A :=
  match xs with
  | [] => ret acc
  | x :: rest => acc' <- body acc x ;; for_fold rest acc' body
  end.

Definition get_version : M Z := fun st => (Returns (version st), st).

Definition set_version (v : Z) : M unit :=
  fun st => (Returns tt,
             {| version := v; exchanges := exchanges st;
                uniform_calls := uniform_calls st;
                uuid4_calls := uuid4_calls st; now_calls := now_calls st |}).

(** ** The class [RosettaStone] (lines 106-342) *)

(** The [data] dictionary handed to [_get_answer]. *)
Record SubmitData := {
  data_user_id : string;
  data_course_id : string;
  data_sequence_id : string;
  data_activity_id : string;
  data_activity_step_id : string;
  data_answers : list Answer
}.

Section RosettaStone.

(** The world outside the program.  [server] answers a request given
    everything exchanged before it; the other oracles are indexed by the
    number of earlier calls.  [uniform n] is the value of the [n]-th
    [random.uniform(0., 0.1)]; [py_float] is Python's [float] on strings,
    [None] standing for its [ValueError]; [slugify] is the external slug
    function. *)
Variable server : list Exchange -> Request -> Response.
Variable uniform : nat -> Q.
Variable uuid4 : nat -> string.
Variable now : nat -> string.
Variable py_float : string -> option Q.
Variable slugify : string -> string.

Definition post (req : Request) : M Response :=
  fun st =>
    let rep := server (exchanges st) req in
    (Returns rep,
     {| version := version st;
        exchanges := exchanges st ++ [(req, rep)];
        uniform_calls := uniform_calls st;
        uuid4_calls := uuid4_calls st; now_calls := now_calls st |}).

Definition random_uniform : M Q :=
  fun st =>
    (Returns (uniform (uniform_calls st)),
     {| version := version st; exchanges := exchanges st;
        uniform_calls := S (uniform_calls st);
        uuid4_calls := uuid4_calls st; now_calls := now_calls st |}).

Definition uuid_uuid4 : M string :=
  fun st =>
    (Returns (uuid4 (uuid4_calls st)),
     {| version := version st; exchanges := exchanges st;
        uniform_calls := uniform_calls st;
        uuid4_calls := S (uuid4_calls st); now_calls := now_calls st |}).

Definition datetime_now : M string :=
  fun st =>
    (Returns (now (now_calls st)),
     {| version := version st; exchanges := exchanges st;
        uniform_calls := uniform_calls st;
        uuid4_calls := uuid4_calls st; now_calls := S (now_calls st) |}).

(** *** [_authenticate] (lines 135-157) *)
Definition _authenticate (username password : string) : M (string * string) :=
  rep <- post (TokenRequest username password) ;;
  if negb (status_code rep =? 200) then exit 1
  else
    let rep_json := json_body rep in
    user_id <- lift (get_userId rep_json) ;;
    token <- lift (get_access_token rep_json) ;;
    ret (user_id, token).

(** *** [_get_courses] (lines 159-225) *)

Definition new_lesson (lesson : Sequence) : Lesson :=
  {| lesson_id := seq_id lesson;
     lesson_title := seq_title lesson;
     slug := slugify (seq_title lesson) |}.

Definition to_do (progress : list CourseProgress) (threshold : Q)
    (course_id : string) (lesson : Sequence) : bool :=
  Qle_bool (get_lesson_progress progress course_id (seq_id lesson)) threshold.

(** The inner loop, lines 207-214. *)
Definition lessons_to_do (progress : list CourseProgress) (threshold : Q)
    (course : Course) : list Lesson :=
  map new_lesson
    (filter (to_do progress threshold (courseId course)) (sequences course)).

(** One turn of the outer loop, lines 206-219. *)
Definition keep_course (progress : list CourseProgress) (threshold : Q)
    (courses : dict CourseInfo) (course : Course) : dict CourseInfo :=
  let course_id := courseId course in
  let lessons := lessons_to_do progress threshold course in
  if (0 <? Z.of_nat (length lessons)) then
    dict_set courses course_id
      {| info_title := course_title course; lessons := lessons |}
  else courses.

(** Lines 203-219. *)
Definition sort_courses (progress : list CourseProgress) (threshold : Q)
    (assigned : list Course) : dict CourseInfo :=
  fold_left (keep_course progress threshold) assigned [].

Definition _get_courses (token : string) (threshold : Q)
  : M (dict CourseInfo) :=
  rep <- post (GraphQL token (getCoursesAndProgress "fr-FR")) ;;
  if negb (status_code rep =? 200) then exit 1
  else
    let rep_json := json_body rep in
    data <- lift (get_data rep_json) ;;
    progress <- lift (get_progress data) ;;
    assigned <- lift (get_assignedCourses data) ;;
    let courses := sort_courses progress threshold assigned in
    if (Z.of_nat (length courses) =? 0) then exit 0
    else ret courses.

(** *** [_calculate_hours] (lines 227-232) *)

Definition count_lessons (courses : dict CourseInfo) : nat :=
  fold_left (fun count course => (count + length (lessons (snd course)))%nat)
    courses O.

(** Returns the value assigned to [self.hours_per_lesson]. *)
Definition _calculate_hours (hours_todo : Q) (courses : dict CourseInfo)
  : result Q :=
  py_div hours_todo (count_lessons courses).

(** *** [_get_answer] (lines 234-263) *)
Definition _get_answer (hours : Q) (data : SubmitData) : M Operation :=
  timestamp_now <- datetime_now ;;
  self_version <- get_version ;;
  attempt <- uuid_uuid4 ;;
  step_attempt <- uuid_uuid4 ;;
  ret (AddProgress (data_user_id data)
         [ {| userAgent := USER_AGENT;
              msg_courseId := data_course_id data;
              msg_sequenceId := data_sequence_id data;
              msg_version := self_version;
              msg_activityId := data_activity_id data;
              activityAttemptId := attempt;
              msg_activityStepId := data_activity_step_id data;
              activityStepAttemptId := step_attempt;
              msg_answers := data_answers data;
              score := 1;
              skip := false;
              durationMs := milliseconds hours;
              endTimestamp := (timestamp_now ++ "Z")%string |} ]).

(** *** [_answer_success] (lines 265-269) *)
Definition _answer_success (response : Body) : M bool :=
  if has_errors response then
    self_version <- get_version ;;
    set_version ((self_version + 1) mod 2) ;;;
    ret false
  else ret true.

(** *** [_complete_step] (lines 271-303) *)

(** The dictionary [data] of lines 279-286 and 293-300. *)
Definition step_data (user_id course_id : string) (lesson : Lesson)
    (activity_id : string) (step : Step) (answers : list Answer)
  : SubmitData :=
  {| data_user_id := user_id;
     data_course_id := course_id;
     data_sequence_id := lesson_id lesson;
     data_activity_id := activity_id;
     data_activity_step_id := activityStepId step;
     data_answers := answers |}.

(** One turn of the loop of lines 278-290.  Python's [and] evaluates its
    right operand, the call of [_answer_success], only when [success] is
    still true. *)
Definition submit_fragment (user_id token course_id : string)
    (lesson : Lesson) (activity_id : string) (step : Step)
    (time_to_answer : Q) (success : bool) (answer : Answer) : M bool :=
  let data := step_data user_id course_id lesson activity_id step [answer] in
  payload <- _get_answer time_to_answer data ;;
  rep_answer <- post (GraphQL token payload) ;;
  if success then _answer_success (json_body rep_answer)
  else ret false.

Definition _complete_step (user_id token course_id : string)
    (lesson : Lesson) (activity_id : string) (step : Step) (hours : Q)
  : M bool :=
  formatted_answers <- lift (format_answers step) ;;
  match formatted_answers with
  | None => lift (Raises TypeError)
  | Some formatted_answers =>
      if fragmented formatted_answers then
        time_to_answer <-
          lift (py_div hours (length (answers formatted_answers))) ;;
        for_fold (answers formatted_answers) true
          (submit_fragment user_id token course_id lesson activity_id step
             time_to_answer)
      else
        let data := step_data user_id course_id lesson activity_id step
                      (answers formatted_answers) in
        payload <- _get_answer hours data ;;
        rep_answer <- post (GraphQL token payload) ;;
        ret (status_code rep_answer =? 200)
  end.

(** *** [_complete_lesson] (lines 305-342) *)

(** The body of the inner loop, lines 337-338; the outcome of the step only
    feeds the console. *)
Definition run_step (user_id token : string) (course_id : string)
    (lesson : Lesson) (hours_per_activity : Q) (activity : Activity)
    (step : Step) : M unit :=
  jitter <- random_uniform ;;
  let random_hours :=
    fadd hours_per_activity (fmul hours_per_activity jitter) in
  _complete_step user_id token course_id lesson (activityId activity) step
    random_hours ;;;
  ret tt.

Definition _complete_lesson (user_id token : string) (hours_per_lesson : Q)
    (course_id : string) (lesson : Lesson) : M unit :=
  rep <- post (GraphQL token (getSequence course_id (slug lesson) "en-US")) ;;
  let rep_json := json_body rep in
  data <- lift (get_data rep_json) ;;
  activities <- lift (get_activities data) ;;
  hours_per_activity <- lift (py_div hours_per_lesson (length activities)) ;;
  for_each activities (fun activity =>
    for_each (steps activity)
      (run_step user_id token course_id lesson hours_per_activity activity)).

(** *** [__init__] (lines 107-133) *)

(** Lines 111-115: the [try]/[except ValueError] around [float(input())]. *)
Definition read_hours_todo (typed : string) (hours_todo : Q) : Q :=
  match py_float typed with
  | Some hours => hours
  | None => hours_todo
  end.

(** Lines 117-133, once [self.hours_todo] and [self.threshold] are set. *)
Definition start (username password : string) (hours_todo threshold : Q)
  : M unit :=
  session <- _authenticate username password ;;
  let '(user_id, token) := session in
  courses <- _get_courses token threshold ;;
  hours_per_lesson <- lift (_calculate_hours hours_todo courses) ;;
  set_version 1 ;;;
  for_each courses (fun entry =>
    let '(course_id, infos) := entry in
    for_each (lessons infos)
      (_complete_lesson user_id token hours_per_lesson course_id)).

(** [typed_id], [typed_pass] and [typed_hours] are what the operator
    enters at the three prompts. *)
Definition __init__ (typed_id typed_pass typed_hours : string)
    (hours_todo threshold : Q) : M unit :=
  start typed_id typed_pass (read_hours_todo typed_hours hours_todo)
    threshold.

(** [RosettaStone()] at line 346: the defaults of the signature, the
    floats [20.] and [0.2]. *)
Definition main (typed_id typed_pass typed_hours : string) : M unit :=
  __init__ typed_id typed_pass typed_hours 20%Q (round64 0.2).

End RosettaStone.

(** The state in which the process starts.  [self.version] is assigned at
    line 126, before anything reads it, so its value here is immaterial. *)
Definition boot : State :=
  {| version := 0; exchanges := []; uniform_calls := O; uuid4_calls := O;
     now_calls := O |}.

(** The status the operating system sees: 0 on a normal return, the
    argument of [exit], 1 after an uncaught exception. *)
Definition exit_status {A : Type} (r : result A) : Z :=
  match r with
  | Returns _ => 0
  | Exits code => code
  | Raises _ => 1
  end.

(** ** The console (lines 73-103)

    The functions that build what the program prints.  They are pure; the
    run above does not thread the console. *)

Module Colors.

Definition COURSE : string := String "027" "[95m".
Definition LESSON : string := String "027" "[96m".
Definition BOLD : string := String "027" "[1m".
Definition UNDERLINE : string := String "027" "[4m".

End Colors.




(** [get_activity_title] (lines 90-94); [None] when the loop ends without a
    [return]. *)
Fixpoint title_in (languages : list Title) : option string :=
  match languages with
  | [] => None
  | language :: rest =>
      if (locale language =? "fr-FR")%string then Some (text language)
      else title_in rest
  end.

Definition get_activity_title (activity : Activity) : option string :=
  title_in (titles activity).


(** ** A concrete world

    Used to run the model: a server that rejects schema version 1, a
    course with three lessons, and a lesson of two activities. *)

Module Demo.

Definition digit (c : ascii) : option Z :=
  let n := Z.of_N (N_of_ascii c) - 48 in
  if (0 <=? n) && (n <=? 9) then Some n else None.

Fixpoint read_digits (s : string) (num : Z) (den : positive)
    (fraction seen : bool) : option Q :=
  match s with
  | EmptyString => if seen then Some (num # den) else None
  | String c rest =>
      if (c =? ".")%char then
        if fraction then None else read_digits rest num den true seen
      else
        match digit c with
        | Some d =>
            read_digits rest (10 * num + d)
              (if fraction then 10 * den else den)%positive fraction true
        | None => None
        end
  end.

(** The number a plain decimal numeral denotes. *)
Definition numeral (s : string) : option Q :=
  match s with
  | String "-" rest => option_map Qopp (read_digits rest 0 1 false false)
  | _ => read_digits s 0 1 false false
  end.

(** Python's [float] restricted to plain decimal numerals. *)
Definition decimal (s : string) : option Q := option_map round64 (numeral s).

Definition slugify (s : string) : string := s.
Definition uuid4 (n : nat) : string := String (ascii_of_nat (65 + n)) "".
Definition now (n : nat) : string := "2023-07-01T00:00:00".
Definition uniform (n : nat) : Q := round64 0.05.

Definition courses : list Course :=
  [ {| courseId := "c1"; course_title := "Business";
       sequences := [ {| seq_id := "l1"; seq_title := "hello" |};
                      {| seq_id := "l2"; seq_title := "meeting" |};
                      {| seq_id := "l3"; seq_title := "travel" |} ] |};
    {| courseId := "c2"; course_title := "Grammar";
       sequences := [ {| seq_id := "l9"; seq_title := "verbs" |} ] |} ].

Definition progress : list CourseProgress :=
  [ {| cp_courseId := "c1";
       cp_sequences := [ {| sp_id := "l2"; percentComplete := 0.2 |};
                         {| sp_id := "l3"; percentComplete := 0.9 |} ] |};
    {| cp_courseId := "c2";
       cp_sequences := [ {| sp_id := "l9"; percentComplete := 1 |} ] |} ].

Definition choice : Step :=
  {| step_type := "multipleChoice"; step_content := [];
     step_correct := [JStr "b"]; activityStepId := "s1" |}.

Definition words : Step :=
  {| step_type := "card";
     step_content :=
       [ {| additionalContent := None;
            carousel := Some [ [ {| card_id := "k1" |}; {| card_id := "k2" |} ];
                               [ {| card_id := "k3" |} ] ] |} ];
     step_correct := []; activityStepId := "s2" |}.

(** A "card" step that is neither a video nor a carousel. *)
Definition grammar : Step :=
  {| step_type := "card";
     step_content := [ {| additionalContent := None; carousel := None |} ];
     step_correct := [JStr "a"]; activityStepId := "s3" |}.

Definition activities : list Activity :=
  [ {| activityId := "a1"; titles := [ {| locale := "fr-FR"; text := "QCM" |} ];
       steps := [choice] |};
    {| activityId := "a2"; titles := []; steps := [words] |} ].

Definition ok (b : Body) : Response :=
  {| status_code := 200; reason := "OK"; json_body := b |}.

Definition rejected : Response :=
  ok (GraphQLBody None (Some [JStr "unknown version"])).

Definition server (log : list Exchange) (req : Request) : Response :=
  match req with
  | TokenRequest _ _ => ok (TokenBody "u1" "t1")
  | GraphQL _ (getCoursesAndProgress _) =>
      ok (GraphQLBody (Some (CoursesAndProgress courses progress)) None)
  | GraphQL _ (getSequence _ _ _) =>
      ok (GraphQLBody (Some (SequenceData (Some activities))) None)
  | GraphQL _ (AddProgress _ messages) =>
      if existsb (fun m => msg_version m =? 1) messages then rejected
      else ok (GraphQLBody (Some ProgressData) None)
  end.

(** A progress report in which every lesson is finished, and a server
    that reports it. *)
Definition finished : list CourseProgress :=
  [ {| cp_courseId := "c1";
       cp_sequences := [ {| sp_id := "l1"; percentComplete := 1 |};
                         {| sp_id := "l2"; percentComplete := 1 |};
                         {| sp_id := "l3"; percentComplete := 0.9 |} ] |};
    {| cp_courseId := "c2";
       cp_sequences := [ {| sp_id := "l9"; percentComplete := 1 |} ] |} ].

Definition idle_server (log : list Exchange) (req : Request) : Response :=
  match req with
  | GraphQL _ (getCoursesAndProgress _) =>
      ok (GraphQLBody (Some (CoursesAndProgress courses finished)) None)
  | _ => server log req
  end.

Definition lesson : Lesson :=
  {| lesson_id := "l1"; lesson_title := "hello"; slug := "hello" |}.

Definition words_plan : Plan :=
  {| fragmented := true;
     answers := [ card_answer {| card_id := "k1" |};
                  card_answer {| card_id := "k2" |};
                  card_answer {| card_id := "k3" |} ];
     title := "Vocabulaire" |}.

Definition choice_plan : Plan :=
  {| fragmented := false;
     answers := [ right_answer (JStr "b") ];
     title := "Choix multiple" |}.

(** The payload of the first step of [lesson] when the lesson has 5
    hours and the run is in [started]. *)
Definition first_payload : Message :=
  {| userAgent := USER_AGENT;
     msg_courseId := "c1";
     msg_sequenceId := "l1";
     msg_version := 1;
     msg_activityId := "a1";
     activityAttemptId := "A";
     msg_activityStepId := "s1";
     activityStepAttemptId := "B";
     msg_answers := [ right_answer (JStr "b") ];
     score := 1;
     skip := false;
     durationMs := 9450000;
     endTimestamp := "2023-07-01T00:00:00Z" |}.

Definition started : State :=
  {| version := 1; exchanges := []; uniform_calls := O; uuid4_calls := O;
     now_calls := O |}.

(** Identifiers that never repeat: [n] strokes for the [n]-th draw. *)
Fixpoint tally (n : nat) : string :=
  match n with
  | O => ""
  | S k => String "I" (tally k)
  end.

(** A token endpoint that turns the operator away. *)
Definition refusing_server (log : list Exchange) (req : Request) : Response :=
  {| status_code := 401; reason := "Unauthorized";
     json_body := GraphQLBody None None |}.

(** A server whose query endpoint is down. *)
Definition down_server (log : list Exchange) (req : Request) : Response :=
  match req with
  | TokenRequest _ _ => ok (TokenBody "u1" "t1")
  | _ => {| status_code := 503; reason := "Service Unavailable";
            json_body := GraphQLBody None None |}
  end.

(** A server whose lessons have no activity. *)
Definition hollow_server (log : list Exchange) (req : Request) : Response :=
  match req with
  | GraphQL _ (getSequence _ _ _) =>
      ok (GraphQLBody (Some (SequenceData (Some []))) None)
  | _ => server log req
  end.

(** A "card" step without content, and a vocabulary step without cards. *)
Definition blank : Step :=
  {| step_type := "card"; step_content := []; step_correct := [];
     activityStepId := "s4" |}.

Definition no_cards : Step :=
  {| step_type := "card";
     step_content := [ {| additionalContent := None; carousel := Some [ [] ] |} ];
     step_correct := []; activityStepId := "s5" |}.

End Demo.

(** * Properties *)

(** The exchanges a computation adds to the log when run from [st]. *)
Definition issued {A : Type} (m : M A) (st : State) : list Exchange :=
  skipn (length (exchanges st)) (exchanges (snd (m st))).

(** The progress messages a request carries. *)
Definition messages_of (req : Request) : list Message :=
  match req with
  | GraphQL _ (AddProgress _ messages) => messages
  | _ => []
  end.

(** The progress messages submitted in a list of exchanges. *)
Definition submitted (log : list Exchange) : list Message :=
  flat_map (fun e => messages_of (fst e)) log.

(** A reply without an error list. *)
Definition accepted (e : Exchange) : bool :=
  negb (has_errors (json_body (snd e))).

(** The duration a step of plan [plan] writes into each of its payloads
    when it is given [hours]. *)
Definition step_duration (plan : Plan) (hours : Q) : Z :=
  if fragmented plan
  then milliseconds (fdiv hours (float_of_nat (length (answers plan))))
  else milliseconds hours.

(** The number of requests among which a step splits its hours. *)
Definition fragments (plan : Plan) : nat :=
  if fragmented plan then length (answers plan) else 1%nat.


(** The tolerance of the time budget: [x] and [y] agree within the
    relative [tolerance] and the absolute [slack]. *)
Definition tolerance : Q := 1 # 1000000000000000.

Definition close (x y slack : Q) : Prop :=
  (Qabs (x - y) <= Qabs y * tolerance + slack)%Q.

(** [m] is a payload of the step [step] of the activity [activity_id], run
    with [hours] under the plan [plan]: it names the activity and the
    step, carries one answer of a fragmented plan or all the answers of a
    single-shot one, and the duration of the plan. *)
Definition payload_of (activity_id : string) (step : Step) (plan : Plan)
    (hours : Q) (m : Message) : Prop :=
  (msg_activityId m, msg_activityStepId m) = (activity_id, activityStepId step) /\
  (if fragmented plan
   then exists answer, In answer (answers plan) /\ msg_answers m = [answer]
   else msg_answers m = answers plan) /\
  durationMs m = step_duration plan hours.

(** [sends P m]: run from any state, [m] only appends to the log, and every
    message it submits satisfies [P]. *)
Definition sends {A : Type} (P : Message -> Prop) (m : M A) : Prop :=
  forall st, exists new,
    exchanges (snd (m st)) = exchanges st ++ new /\ Forall P (submitted new).

(** Every lesson of the discovery result, course after course. *)
Definition all_lessons (courses : dict CourseInfo) : list Lesson :=
  flat_map (fun entry => lessons (snd entry)) courses.

(** [sum(xs)] over rationals. *)
Definition total (xs : list Q) : Q := fold_right Qplus 0%Q xs.

(** The log only grows. *)
Definition grows {A : Type} (m : M A) : Prop := sends (fun _ => True) m.

(** An entry of the progress report for a course and a lesson, with the
    progress it records. *)
Definition reported (progress : list CourseProgress) (course_id lesson : string)
    (pc : Q) : Prop :=
  exists course sequence,
    In course progress /\ cp_courseId course = course_id /\
    In sequence (cp_sequences course) /\ sp_id sequence = lesson /\
    percentComplete sequence = pc.

Section Wire.

Variable uuid4 : nat -> string.
Variable now : nat -> string.

(** The message [_get_answer] builds in state [st]. *)
Definition message_at (st : State) (hours : Q) (data : SubmitData) : Message :=
  {| userAgent := USER_AGENT;
     msg_courseId := data_course_id data;
     msg_sequenceId := data_sequence_id data;
     msg_version := version st;
     msg_activityId := data_activity_id data;
     activityAttemptId := uuid4 (uuid4_calls st);
     msg_activityStepId := data_activity_step_id data;
     activityStepAttemptId := uuid4 (S (uuid4_calls st));
     msg_answers := data_answers data;
     score := 1;
     skip := false;
     durationMs := milliseconds hours;
     endTimestamp := (now (now_calls st) ++ "Z")%string |}.

Variables user_id token course_id : string.
Variable lesson : Lesson.
Variable activity_id : string.
Variable step : Step.

(** The request a submission of [answers] makes in state [st]. *)
Definition submission (st : State) (hours : Q) (answers : list Answer)
  : Request :=
  GraphQL token
    (AddProgress user_id
       [message_at st hours
          (step_data user_id course_id lesson activity_id step answers)]).

(** What one turn of the fragment loop puts on the wire. *)
Definition sent_fragment (hours : Q) (answer : Answer) (e : Exchange)
  : Prop :=
  exists st0, fst e = submission st0 hours [answer].

End Wire.

(** The attempt identifiers of the messages of a log, in the order in
    which [_get_answer] drew them. *)
Definition attempt_ids (log : list Exchange) : list string :=
  flat_map (fun m => [activityAttemptId m; activityStepAttemptId m])
    (submitted log).

(** The lessons a log asks the server for: course id and slug of every
    [getSequence] query. *)
Definition fetched (log : list Exchange) : list (string * string) :=
  flat_map (fun e => match fst e with
                     | GraphQL _ (getSequence course_id sequenceSlug _) =>
                         [(course_id, sequenceSlug)]
                     | _ => []
                     end) log.

(** The lessons of a discovery result in the order of its dictionary, each
    with the id of its course and its slug. *)
Definition planned (courses : dict CourseInfo) : list (string * string) :=
  flat_map (fun entry => map (fun lesson => (fst entry, slug lesson))
                           (lessons (snd entry))) courses.

(** [follows plan m]: [m] only appends to the log, the lessons it fetches
    are the first ones of [plan], in order, and all of [plan] when [m]
    returns. *)
Definition follows (plan : list (string * string)) (m : M unit) : Prop :=
  forall st, exists new rest,
    exchanges (snd (m st)) = exchanges st ++ new /\
    plan = fetched new ++ rest /\
    (fst (m st) = Returns tt -> rest = []).

(** A request made on behalf of the session [(user_id, token)]: a GraphQL
    request under the bearer token, a submission naming the user and
    carrying one message. *)
Definition authorised (user_id token : string) (req : Request) : Prop :=
  match req with
  | TokenRequest _ _ => False
  | GraphQL bearer op =>
      bearer = token /\
      match op with
      | AddProgress user messages => user = user_id /\ length messages = 1%nat
      | _ => True
      end
  end.

(** The state after an exchange. *)
Definition logged (st : State) (req : Request) (rep : Response) : State :=
  {| version := version st;
     exchanges := exchanges st ++ [(req, rep)];
     uniform_calls := uniform_calls st;
     uuid4_calls := uuid4_calls st;
     now_calls := now_calls st |}.

(** The state in which the lessons start: the two exchanges of the prelude
    are in the log and [self.version] is 1. *)
Definition ready (st : State) (prelude : list Exchange) : State :=
  {| version := 1;
     exchanges := exchanges st ++ prelude;
     uniform_calls := uniform_calls st;
     uuid4_calls := uuid4_calls st;
     now_calls := now_calls st |}.

Section Moves.

Variable server : list Exchange -> Request -> Response.
Variable uuid4 : nat -> string.
Variable now : nat -> string.
Variables user_id token : string.

(** The effects the lessons have on the state, one at a time: a jitter
    draw; a submission, after which the version is kept or flipped; and,
    when [fetching] is set, the query for a lesson. *)
Inductive move (fetching : bool) : State -> State -> Prop :=
| move_draw (st : State) :
    move fetching st
      {| version := version st; exchanges := exchanges st;
         uniform_calls := S (uniform_calls st);
         uuid4_calls := uuid4_calls st; now_calls := now_calls st |}
| move_submit (st : State) (hours : Q) (data : SubmitData) (flip : bool) :
    let req := GraphQL token
                 (AddProgress user_id [message_at uuid4 now st hours data]) in
    move fetching st
      {| version := if flip then (version st + 1) mod 2 else version st;
         exchanges := exchanges st ++ [(req, server (exchanges st) req)];
         uniform_calls := uniform_calls st;
         uuid4_calls := S (S (uuid4_calls st));
         now_calls := S (now_calls st) |}
| move_fetch (st : State) (course_id sequenceSlug : string) :
    fetching = true ->
    let req := GraphQL token (getSequence course_id sequenceSlug "en-US") in
    move fetching st (logged st req (server (exchanges st) req)).

Inductive moves (fetching : bool) : State -> State -> Prop :=
| moves_none (st : State) : moves fetching st st
| moves_more (st st' st'' : State) :
    moves fetching st st' -> move fetching st' st'' -> moves fetching st st''.

(** [reaches fetching m]: whatever [m] does to the state is a sequence of
    moves. *)
Definition reaches {A : Type} (fetching : bool) (m : M A) : Prop :=
  forall st, moves fetching st (snd (m st)).

End Moves.

(** ** Lists and the log *)

Lemma skipn_length_app {A : Type} (l new : list A) :
  skipn (length l) (l ++ new) = new.
Proof.
  induction l as [|x l IH]; simpl; auto.
Qed.

Lemma filter_none {A : Type} (f : A -> bool) (l : list A) :
  (forall x, In x l -> f x = false) -> filter f l = [].
Proof.
  induction l as [|x l IH]; intros H; cbn; [reflexivity|].
  rewrite (H x (or_introl eq_refl)). apply IH. intros y Hy. apply H. now right.
Qed.

Lemma submitted_app (l1 l2 : list Exchange) :
  submitted (l1 ++ l2) = submitted l1 ++ submitted l2.
Proof.
  unfold submitted. apply flat_map_app.
Qed.

(** The [(self.version + 1) % 2] of [_answer_success] never gives back the
    version it started from. *)
Lemma flip_differs (v : Z) : (v + 1) mod 2 <> v.
Proof.
  intro H.
  assert (Hb : 0 <= (v + 1) mod 2 < 2) by (apply Z.mod_pos_bound; lia).
  assert (Hv : v = 0 \/ v = 1) by lia.
  destruct Hv; subst v; discriminate.
Qed.

(** ** Computations that only append to the log *)

Section Sends.

Context {A : Type} (P : Message -> Prop).

Lemma sends_quiet (m : M A) :
  (forall st, exchanges (snd (m st)) = exchanges st) -> sends P m.
Proof.
  intros H st. exists []. rewrite H, app_nil_r. split; [reflexivity|].
  constructor.
Qed.

Lemma sends_ret (a : A) : sends P (ret a).
Proof. now apply sends_quiet. Qed.

Lemma sends_lift (r : result A) : sends P (lift r).
Proof. now apply sends_quiet. Qed.

Lemma sends_bind {B : Type} (m : M B) (k : B -> M A) :
  sends P m -> (forall b, sends P (k b)) -> sends P (bind m k).
Proof.
  intros Hm Hk st. unfold bind. destruct (Hm st) as (new & Hlog & Hnew).
  destruct (m st) as [[b|e|c] st1]; cbn [snd] in *;
    try solve [exists new; auto].
  destruct (Hk b st1) as (new' & Hlog' & Hnew').
  exists (new ++ new'). rewrite Hlog', Hlog, app_assoc, submitted_app.
  split; [reflexivity | now apply Forall_app].
Qed.

Lemma sends_weaken (Q : Message -> Prop) (m : M A) :
  (forall x, Q x -> P x) -> sends Q m -> sends P m.
Proof.
  intros HQP Hm st. destruct (Hm st) as (new & Hlog & Hnew).
  exists new. split; [exact Hlog|]. revert Hnew. apply Forall_impl, HQP.
Qed.

End Sends.

Lemma sends_for_each {X : Type} (P : Message -> Prop) (xs : list X)
    (body : X -> M unit) :
  (forall x, In x xs -> sends P (body x)) -> sends P (for_each xs body).
Proof.
  induction xs as [|x xs IH]; intros H; cbn [for_each].
  - apply sends_ret.
  - apply sends_bind; [apply H; now left|].
    intros _. apply IH. intros y Hy. apply H. now right.
Qed.

(** ** Rounding, truncation and the jitter *)

(** [nearest_even y] is within a half of [y], depends on the value of [y]
    only, and leaves integers alone. *)
Lemma nearest_even_close (y : Q) :
  (y - (1 # 2) <= inject_Z (nearest_even y) <= y + (1 # 2))%Q.
Proof.
  unfold nearest_even.
  pose proof (Qfloor_le y) as Hlo.
  pose proof (Qlt_floor y) as Hhi.
  rewrite inject_Z_plus in Hhi. change (inject_Z 1) with 1%Q in Hhi.
  destruct (Qcompare_spec (y - inject_Z (Qfloor y)) (1 # 2)) as [He | Hl | Hg].
  - destruct (Z.even (Qfloor y));
      [| rewrite inject_Z_plus; change (inject_Z 1) with 1%Q]; split; lra.
  - split; lra.
  - rewrite inject_Z_plus. change (inject_Z 1) with 1%Q. split; lra.
Qed.


Lemma nearest_even_comp (x y : Q) :
  (x == y)%Q -> nearest_even x = nearest_even y.
Proof.
  intros H. unfold nearest_even. rewrite (Qfloor_comp x y H).
  assert (x - inject_Z (Qfloor y) == y - inject_Z (Qfloor y))%Q as E
    by (rewrite H; reflexivity).
  now rewrite (Qcompare_comp _ _ E (1 # 2) (1 # 2) (Qeq_refl _)).
Qed.

Lemma nearest_even_Z (z : Z) : nearest_even (inject_Z z) = z.
Proof.
  unfold nearest_even. rewrite Qfloor_Z.
  destruct (Qcompare_spec (inject_Z z - inject_Z z) (1 # 2));
    [lra | reflexivity | lra].
Qed.

Lemma pow2_pos (e : Z) : (0 < 2 ^ e)%Q.
Proof. apply Qpower_0_lt. reflexivity. Qed.

(** [floor_log2 x] is the exponent of the binade of [x]. *)
Lemma floor_log2_le (x : Q) : (0 < x)%Q -> (2 ^ floor_log2 x <= x)%Q.
Proof.
  intros Hx. unfold floor_log2.
  set (a := Z.log2 (Qnum x)). set (b := Z.log2 (Zpos (Qden x))).
  destruct (Qle_bool (2 ^ (a - b)) x) eqn:Hle.
  - apply Qle_bool_iff. exact Hle.
  - clear Hle.
    assert (0 < Qnum x) as Hn.
    { destruct x as [n d]. unfold Qlt in Hx. cbn in *. lia. }
    destruct (Z.log2_spec (Qnum x) Hn) as [Ha _].
    destruct (Z.log2_spec (Zpos (Qden x)) (Pos2Z.is_pos _)) as [_ Hb].
    fold a in Ha. fold b in Hb.
    assert (0 <= a) as Ha0 by apply Z.log2_nonneg.
    assert (0 <= b) as Hb0 by apply Z.log2_nonneg.
    replace (a - b - 1) with (a + - (b + 1)) by lia.
    rewrite Qpower_plus by discriminate.
    rewrite Qpower_opp.
    change 2%Q with (inject_Z 2).
    rewrite <- !Zpower_Qpower by lia.
    replace (Z.succ b) with (b + 1) in Hb by lia.
    assert (0 < 2 ^ (b + 1)) as Hp by (apply Z.pow_pos_nonneg; lia).
    destruct x as [n d]. cbn in Ha, Hb, Hn.
    apply Qle_shift_div_r.
    { change 0%Q with (inject_Z 0). rewrite <- Zlt_Qlt. exact Hp. }
    unfold Qle. cbn. rewrite !Z.mul_1_r.
    apply Z.mul_le_mono_nonneg; lia.
Qed.

Lemma floor_log2_lt (x : Q) : (0 < x)%Q -> (x < 2 ^ (floor_log2 x + 1))%Q.
Proof.
  intros Hx. unfold floor_log2.
  set (a := Z.log2 (Qnum x)). set (b := Z.log2 (Zpos (Qden x))).
  destruct (Qle_bool (2 ^ (a - b)) x) eqn:Hle.
  - clear Hle.
    assert (0 < Qnum x) as Hn.
    { destruct x as [n d]. unfold Qlt in Hx. cbn in *. lia. }
    destruct (Z.log2_spec (Qnum x) Hn) as [_ Ha].
    destruct (Z.log2_spec (Zpos (Qden x)) (Pos2Z.is_pos _)) as [Hb _].
    fold a in Ha. fold b in Hb.
    assert (0 <= a) as Ha0 by apply Z.log2_nonneg.
    assert (0 <= b) as Hb0 by apply Z.log2_nonneg.
    replace (a - b + 1) with (a + 1 + - b) by lia.
    rewrite Qpower_plus by discriminate.
    rewrite Qpower_opp.
    change 2%Q with (inject_Z 2).
    rewrite <- !Zpower_Qpower by lia.
    replace (Z.succ a) with (a + 1) in Ha by lia.
    assert (0 < 2 ^ b) as Hp by (apply Z.pow_pos_nonneg; lia).
    apply Qlt_shift_div_l.
    { change 0%Q with (inject_Z 0). rewrite <- Zlt_Qlt. exact Hp. }
    unfold Qlt, Qmult, inject_Z. cbn [Qnum Qden].
    rewrite Pos.mul_1_r, Z.mul_1_r.
    apply Z.le_lt_trans with (Qnum x * Zpos (Qden x));
      [|apply Z.mul_lt_mono_pos_r; lia].
    apply Z.mul_le_mono_nonneg_l; lia.
  - replace (a - b - 1 + 1) with (a - b) by lia.
    apply Qnot_le_lt. intros H. apply Qle_bool_iff in H. congruence.
Qed.

(** One rounding: the error is at most half a unit in the last place,
    that is [unit_roundoff] of [x], or [tiny] among the subnormal
    numbers. *)
Lemma round_pos_close (x : Q) :
  (0 < x)%Q -> (Qabs (round_pos x - x) <= x * unit_roundoff + tiny)%Q.
Proof.
  intros Hx. unfold round_pos.
  set (e := Z.max (floor_log2 x - 52) (-1074)).
  pose proof (pow2_pos e) as He.
  pose proof (nearest_even_close (x / 2 ^ e)) as [Hlo Hhi].
  set (n := inject_Z (nearest_even (x / 2 ^ e))) in *.
  assert (x / 2 ^ e * 2 ^ e == x)%Q as Hq by (field; lra).
  assert (2 ^ e * (1 # 2) <= x * unit_roundoff + tiny)%Q as Hcase.
  { pose proof (pow2_pos (-1075)) as Ht. fold tiny in Ht.
    destruct (Z.max_spec (floor_log2 x - 52) (-1074)) as [[_ Hm] | [_ Hm]];
      fold e in Hm; rewrite Hm.
    - assert (0 <= x * unit_roundoff)%Q by (unfold unit_roundoff; lra).
      change (2 ^ (-1074) * (1 # 2))%Q with (2 ^ (-1074) * 2 ^ (-1))%Q.
      rewrite <- Qpower_plus by discriminate.
      change (-1074 + -1) with (-1075). fold tiny. lra.
    - pose proof (floor_log2_le x Hx) as Hf.
      replace (floor_log2 x - 52) with (floor_log2 x + -52) by lia.
      rewrite Qpower_plus by discriminate.
      change (2 ^ (-52))%Q with (1 # 4503599627370496)%Q.
      unfold unit_roundoff. lra. }
  apply Qabs_Qle_condition.
  assert ((n - x / 2 ^ e) * 2 ^ e == n * 2 ^ e - x)%Q as Hd.
  { field. lra. }
  rewrite <- Hd.
  assert (- (1 # 2) <= n - x / 2 ^ e <= 1 # 2)%Q as [Hl Hr] by (split; lra).
  split.
  - apply Qle_trans with (- (2 ^ e * (1 # 2)))%Q; [lra |].
    setoid_replace (- (2 ^ e * (1 # 2)))%Q with (- (1 # 2) * 2 ^ e)%Q by ring.
    apply Qmult_le_compat_r; lra.
  - apply Qle_trans with ((1 # 2) * 2 ^ e)%Q; [| lra].
    apply Qmult_le_compat_r; lra.
Qed.


Lemma round64_close (x : Q) :
  (Qabs (round64 x - x) <= Qabs x * unit_roundoff + tiny)%Q.
Proof.
  pose proof (pow2_pos (-1075)) as Ht. fold tiny in Ht.
  unfold round64.
  destruct (Qcompare_spec x 0) as [He | Hl | Hg].
  - rewrite He. cbn -[tiny]. lra.
  - assert (0 < - x)%Q as Hx by lra.
    pose proof (round_pos_close (- x) Hx) as Hc.
    setoid_replace (- round_pos (- x) - x)%Q with (- (round_pos (- x) - - x))%Q
      by ring.
    rewrite Qabs_opp, (Qabs_neg x) by lra. exact Hc.
  - rewrite (Qabs_pos x) by lra. apply round_pos_close. exact Hg.
Qed.


Lemma round64_within (x : Q) :
  (0 <= x)%Q ->
  (x - x * unit_roundoff - tiny <= round64 x <= x + x * unit_roundoff + tiny)%Q.
Proof.
  intros Hx. pose proof (round64_close x) as Hc.
  rewrite (Qabs_pos x) in Hc by exact Hx.
  apply Qabs_Qle_condition in Hc. destruct Hc. split; lra.
Qed.

(** [tiny] is far below anything the program computes with. *)
Lemma tiny_small : (0 < tiny <= 1 # 1000000000000000000000000000000)%Q.
Proof.
  split; [apply pow2_pos |].
  unfold tiny, Qle. vm_compute. discriminate.
Qed.



Lemma count_ge_1 (n : nat) : (1 <= n)%nat -> (1 <= inject_Z (Z.of_nat n))%Q.
Proof.
  intros Hn. change 1%Q with (inject_Z 1). rewrite <- Zle_Qle. lia.
Qed.

(** The float of a count [n >= 1], and its inverse, against [n]. *)
Lemma float_of_nat_close (n : nat) :
  (1 <= n)%nat ->
  let N := inject_Z (Z.of_nat n) in
  (N - N * (2 * unit_roundoff) <= float_of_nat n <= N + N * (2 * unit_roundoff))%Q.
Proof.
  intros Hn N. pose proof (count_ge_1 n Hn) as HN. fold N in HN.
  assert (0 <= N)%Q as HN0 by lra.
  pose proof (round64_within N HN0) as [Hlo Hhi].
  pose proof tiny_small as [Ht0 Ht1].
  unfold float_of_nat. fold N. unfold unit_roundoff in *. split; lra.
Qed.

Lemma float_of_nat_inv (n : nat) :
  (1 <= n)%nat ->
  let N := inject_Z (Z.of_nat n) in
  (0 < float_of_nat n)%Q /\
  (/ N - / N * (4 * unit_roundoff) <= / float_of_nat n
   <= / N + / N * (4 * unit_roundoff))%Q.
Proof.
  intros Hn N. pose proof (count_ge_1 n Hn) as HN. fold N in HN.
  pose proof (float_of_nat_close n Hn) as [Hlo Hhi]. fold N in Hlo, Hhi.
  set (k := float_of_nat n) in *. unfold unit_roundoff in *.
  assert (0 < k)%Q as Hk by lra.
  assert (0 < N)%Q as HN0 by lra.
  split; [exact Hk|].
  assert (0 < / k)%Q as Hc by now apply Qinv_lt_0_compat.
  assert (0 < / N)%Q as HC by now apply Qinv_lt_0_compat.
  assert (k * / k == 1)%Q as Ek by (apply Qmult_inv_r; lra).
  assert (N * / N == 1)%Q as EN by (apply Qmult_inv_r; lra).
  set (c := (/ k)%Q) in *. set (C := (/ N)%Q) in *.
  assert (0 <= c * C)%Q as HcC by (apply Qmult_le_0_compat; lra).
  assert ((N - N * (2 * (1 # 9007199254740992))) * (c * C) <= k * (c * C))%Q
    as H1 by (apply Qmult_le_compat_r; assumption).
  assert (k * (c * C) <= (N + N * (2 * (1 # 9007199254740992))) * (c * C))%Q
    as H2 by (apply Qmult_le_compat_r; assumption).
  assert (k * (c * C) == C)%Q as E1.
  { setoid_replace (k * (c * C))%Q with (k * c * C)%Q by ring.
    rewrite Ek. ring. }
  assert (forall z, (N + N * z) * (c * C) == c + c * z)%Q as E2.
  { intros z.
    setoid_replace ((N + N * z) * (c * C))%Q with (N * C * (c + c * z))%Q
      by ring.
    rewrite EN. ring. }
  rewrite E1 in H1, H2. rewrite E2 in H2.
  setoid_replace ((N - N * (2 * (1 # 9007199254740992))) * (c * C))%Q
    with (N * C * (c - c * (2 * (1 # 9007199254740992))))%Q in H1 by ring.
  rewrite EN in H1.
  split; lra.
Qed.

(** Counts below [2 ^ 53] are floats. *)
Lemma float_of_nat_exact (n : nat) :
  Z.of_nat n < 2 ^ 53 -> (float_of_nat n == inject_Z (Z.of_nat n))%Q.
Proof.
  intros Hn. unfold float_of_nat, round64.
  set (N := Z.of_nat n) in *.
  destruct (Qcompare_spec (inject_Z N) 0) as [He | Hl | Hg].
  - now rewrite He.
  - exfalso. change 0%Q with (inject_Z 0) in Hl. rewrite <- Zlt_Qlt in Hl. lia.
  - unfold round_pos.
    pose proof (floor_log2_le _ Hg) as Hlo.
    pose proof (floor_log2_lt _ Hg) as Hhi.
    set (f := floor_log2 (inject_Z N)) in *.
    assert (f < 53) as Hf.
    { apply (Qpower_lt_compat_l_inv 2); [|reflexivity].
      apply Qle_lt_trans with (inject_Z N); [exact Hlo|].
      change (2 ^ 53)%Q with (inject_Z (2 ^ 53)). now rewrite <- Zlt_Qlt. }
    assert (0 < f + 1) as Hf0.
    { apply (Qpower_lt_compat_l_inv 2); [|reflexivity].
      apply Qle_lt_trans with (inject_Z N); [|exact Hhi].
      change (2 ^ 0)%Q with (inject_Z 1). rewrite <- Zle_Qle.
      change 0%Q with (inject_Z 0) in Hg. rewrite <- Zlt_Qlt in Hg. lia. }
    rewrite Z.max_l by lia.
    set (k := 52 - f).
    replace (f - 52) with (- k) by (unfold k; lia).
    assert (0 <= k) as Hk by (unfold k; lia).
    pose proof (pow2_pos k) as Hp.
    assert (inject_Z N / 2 ^ (- k) == inject_Z (N * 2 ^ k))%Q as E.
    { rewrite Qpower_opp, inject_Z_mult, Zpower_Qpower by exact Hk.
      change (inject_Z 2) with 2%Q. field. lra. }
    rewrite (nearest_even_comp _ _ E), nearest_even_Z.
    rewrite Qpower_opp, inject_Z_mult, Zpower_Qpower by exact Hk.
    change (inject_Z 2) with 2%Q. field. lra.
Qed.







Lemma Qabs_le_of (x b : Q) : (- b <= x)%Q -> (x <= b)%Q -> (Qabs x <= b)%Q.
Proof. intros. apply Qabs_Qle_condition. split; assumption. Qed.

(** A float divided by a count, against the exact quotient. *)
Lemma fdiv_nat_close (x : Q) (n : nat) :
  (1 <= n)%nat ->
  close (fdiv x (float_of_nat n)) (x / inject_Z (Z.of_nat n)) tiny.
Proof.
  intros Hn. unfold close.
  destruct (float_of_nat_inv n Hn) as (Hk & Hlo & Hhi).
  pose proof (count_ge_1 n Hn) as HN.
  set (N := inject_Z (Z.of_nat n)) in *. set (k := float_of_nat n) in *.
  assert (0 < / N)%Q as HC by (apply Qinv_lt_0_compat; lra).
  unfold fdiv, Qdiv.
  pose proof (round64_close (x * / k)) as Hr.
  apply Qabs_Qle_condition in Hr. destruct Hr as [Hr Hr'].
  destruct (Qlt_le_dec x 0) as [Hneg | Hpos].
  - assert (0 <= - x)%Q as Hy by lra.
    assert ((/ N - / N * (4 * unit_roundoff)) * - x <= / k * - x)%Q as H1
      by (apply Qmult_le_compat_r; assumption).
    assert (/ k * - x <= (/ N + / N * (4 * unit_roundoff)) * - x)%Q as H2
      by (apply Qmult_le_compat_r; assumption).
    setoid_replace ((/ N - / N * (4 * unit_roundoff)) * - x)%Q
      with (- (x * / N) + x * / N * (4 * unit_roundoff))%Q in H1 by ring.
    setoid_replace ((/ N + / N * (4 * unit_roundoff)) * - x)%Q
      with (- (x * / N) - x * / N * (4 * unit_roundoff))%Q in H2 by ring.
    setoid_replace (/ k * - x)%Q with (- (x * / k))%Q in H1 by ring.
    setoid_replace (/ k * - x)%Q with (- (x * / k))%Q in H2 by ring.
    assert (x * / N <= 0)%Q as He.
    { setoid_replace (x * / N)%Q with (- (- x * / N))%Q by ring.
      assert (0 <= - x * / N)%Q; [apply Qmult_le_0_compat|]; lra. }
    assert (x * / k <= 0)%Q as Hq by (unfold unit_roundoff in *; lra).
    pose proof (Qabs_neg _ Hq) as Eq. pose proof (Qabs_neg _ He) as Ee.
    set (q := (x * / k)%Q) in *. set (e := (x * / N)%Q) in *.
    set (r := round64 q) in *. set (aq := Qabs q) in *. set (ae := Qabs e) in *.
    apply Qabs_le_of; unfold unit_roundoff, tolerance in *; lra.
  - assert ((/ N - / N * (4 * unit_roundoff)) * x <= / k * x)%Q as H1
      by (apply Qmult_le_compat_r; assumption).
    assert (/ k * x <= (/ N + / N * (4 * unit_roundoff)) * x)%Q as H2
      by (apply Qmult_le_compat_r; assumption).
    setoid_replace ((/ N - / N * (4 * unit_roundoff)) * x)%Q
      with (x * / N - x * / N * (4 * unit_roundoff))%Q in H1 by ring.
    setoid_replace ((/ N + / N * (4 * unit_roundoff)) * x)%Q
      with (x * / N + x * / N * (4 * unit_roundoff))%Q in H2 by ring.
    setoid_replace (/ k * x)%Q with (x * / k)%Q in H1 by ring.
    setoid_replace (/ k * x)%Q with (x * / k)%Q in H2 by ring.
    assert (0 <= x * / N)%Q as He by (apply Qmult_le_0_compat; lra).
    assert (0 <= x * / k)%Q as Hq by (unfold unit_roundoff in *; lra).
    pose proof (Qabs_pos _ Hq) as Eq. pose proof (Qabs_pos _ He) as Ee.
    set (q := (x * / k)%Q) in *. set (e := (x * / N)%Q) in *.
    set (r := round64 q) in *. set (aq := Qabs q) in *. set (ae := Qabs e) in *.
    apply Qabs_le_of; unfold unit_roundoff, tolerance in *; lra.
Qed.

(** [n] equal parts of [y], each within tolerance, make up [y] within
    tolerance. *)
Lemma parts_close (x y : Q) (n : nat) :
  (1 <= n)%nat ->
  close x (y / inject_Z (Z.of_nat n)) tiny ->
  close (x * inject_Z (Z.of_nat n)) y (inject_Z (Z.of_nat n) * tiny).
Proof.
  intros Hn. unfold close. pose proof (count_ge_1 n Hn) as HN.
  set (N := inject_Z (Z.of_nat n)) in *. intros Hc.
  assert (0 <= N)%Q as HN0 by lra.
  assert (Qabs N == N)%Q as EN by (apply Qabs_pos; exact HN0).
  setoid_replace (x * N - y)%Q with ((x - y / N) * N)%Q by (field; lra).
  rewrite Qabs_Qmult, EN.
  setoid_replace (Qabs y)%Q with (Qabs (y / N) * N)%Q.
  2:{ rewrite <- EN at 2. rewrite <- Qabs_Qmult. apply Qabs_wd. field. lra. }
  setoid_replace (Qabs (y / N) * N * tolerance + N * tiny)%Q
    with ((Qabs (y / N) * tolerance + tiny) * N)%Q by ring.
  apply Qmult_le_compat_r; assumption.
Qed.


(** ** Dictionaries *)

Lemma dict_get_set_same {V : Type} (d : dict V) (k : string) (v : V) :
  dict_get (dict_set d k v) k = Some v.
Proof.
  induction d as [|[k' v'] d IH]; cbn.
  - now rewrite String.eqb_refl.
  - destruct (k' =? k)%string eqn:E; cbn.
    + now rewrite String.eqb_refl.
    + now rewrite E.
Qed.

Lemma dict_get_set_other {V : Type} (d : dict V) (k k' : string) (v : V) :
  k <> k' -> dict_get (dict_set d k v) k' = dict_get d k'.
Proof.
  intros Hne. induction d as [|[k0 v0] d IH]; cbn.
  - destruct (String.eqb_spec k k'); [contradiction | reflexivity].
  - destruct (String.eqb_spec k0 k) as [->|Hk0]; cbn.
    + destruct (String.eqb_spec k k'); [contradiction|].
      destruct (String.eqb_spec k k'); [contradiction | reflexivity].
    + destruct (String.eqb_spec k0 k'); [reflexivity | exact IH].
Qed.

Lemma dict_set_values {V : Type} (P : V -> Prop) (d : dict V) (k : string)
    (v : V) :
  Forall P (dict_values d) -> P v -> Forall P (dict_values (dict_set d k v)).
Proof.
  intros Hd Hv. induction d as [|[k' v'] d IH]; cbn.
  - constructor; auto.
  - inversion Hd; subst. destruct (k' =? k)%string; cbn; constructor; auto.
Qed.

(** ** Progress lookup *)

Lemma find_sequence_some (seqs : list SequenceProgress) (lesson : string)
    (pc : Q) :
  find_sequence seqs lesson = Some pc ->
  exists sequence,
    In sequence seqs /\ sp_id sequence = lesson /\ percentComplete sequence = pc.
Proof.
  induction seqs as [|sq seqs IH]; cbn; [discriminate|].
  destruct (String.eqb_spec (sp_id sq) lesson) as [E|E].
  - intros [= <-]. exists sq. auto.
  - intros H. destruct (IH H) as (sq' & Hin & Hid & Hpc). exists sq'. auto.
Qed.

Lemma find_sequence_none (seqs : list SequenceProgress) (lesson : string) :
  find_sequence seqs lesson = None ->
  forall sequence, In sequence seqs -> sp_id sequence <> lesson.
Proof.
  induction seqs as [|sq seqs IH]; cbn; [intros _ ? []|].
  destruct (String.eqb_spec (sp_id sq) lesson) as [E|E]; [discriminate|].
  intros H sequence [<-|Hin]; auto.
Qed.

(** [get_lesson_progress] answers with a reported value, or with 0 when
    the report has no entry for the course and the lesson. *)
Lemma get_lesson_progress_cases (progress : list CourseProgress)
    (course_id lesson : string) :
  reported progress course_id lesson
    (get_lesson_progress progress course_id lesson) \/
  (get_lesson_progress progress course_id lesson = 0%Q /\
   forall pc, ~ reported progress course_id lesson pc).
Proof.
  induction progress as [|course progress IH]; cbn.
  - right. split; [reflexivity|]. intros pc (c & sq & [] & _).
  - destruct (String.eqb_spec (cp_courseId course) course_id) as [E|E]; cbn.
    + destruct (find_sequence (cp_sequences course) lesson) as [pc|] eqn:F.
      * left. destruct (find_sequence_some _ _ _ F) as (sq & Hin & Hid & Hpc).
        exists course, sq. cbn. auto.
      * destruct IH as [(c & sq & Hc & Hrest)|[H0 Hnone]].
        -- left. exists c, sq. cbn. auto.
        -- right. split; [exact H0|].
           intros pc (c & sq & [<-|Hc] & Hid & Hsq & Hl & Hpc).
           ++ exact (find_sequence_none _ _ F sq Hsq Hl).
           ++ apply (Hnone pc). exists c, sq. auto.
    + destruct IH as [(c & sq & Hc & Hrest)|[H0 Hnone]].
      * left. exists c, sq. cbn. auto.
      * right. split; [exact H0|].
        intros pc (c & sq & [<-|Hc] & Hid & Hrest); [contradiction|].
        apply (Hnone pc). exists c, sq. auto.
Qed.

Section Properties.

Variable server : list Exchange -> Request -> Response.
Variable uniform : nat -> Q.
Variable uuid4 : nat -> string.
Variable now : nat -> string.
Variable py_float : string -> option Q.
Variable slugify : string -> string.

(** ** Discovery *)

Section Discovery.

Variable progress : list CourseProgress.
Variable threshold : Q.

Local Abbreviation keep := (keep_course slugify progress threshold).
Local Abbreviation to_keep := (lessons_to_do slugify progress threshold).
Local Abbreviation sorted := (sort_courses slugify progress threshold).

Lemma keep_other (assigned : list Course) (k : string) :
  forall acc,
  ~ In k (map courseId assigned) ->
  dict_get (fold_left keep assigned acc) k = dict_get acc k.
Proof.
  induction assigned as [|c assigned IH]; intros acc Hk; cbn; [reflexivity|].
  cbn in Hk. rewrite IH by (intros Hin; apply Hk; now right).
  unfold keep_course. destruct (0 <? _); [|reflexivity].
  apply dict_get_set_other. intros E. apply Hk. now left.
Qed.

Lemma keep_in (assigned : list Course) (course : Course) :
  forall acc,
  NoDup (map courseId assigned) ->
  In course assigned ->
  dict_get (fold_left keep assigned acc) (courseId course) =
  match to_keep course with
  | [] => dict_get acc (courseId course)
  | found => Some {| info_title := course_title course; lessons := found |}
  end.
Proof.
  induction assigned as [|c assigned IH]; intros acc Hnd Hin; [destruct Hin|].
  cbn in Hnd. inversion Hnd as [|? ? Hnotin Hnd']; subst.
  cbn [fold_left]. destruct Hin as [->|Hin].
  - rewrite keep_other by assumption. unfold keep_course.
    destruct (to_keep course) as [|l found]; cbn; [reflexivity|].
    apply dict_get_set_same.
  - rewrite IH by assumption.
    destruct (to_keep course); [|reflexivity].
    unfold keep_course. destruct (0 <? _); [|reflexivity].
    apply dict_get_set_other. intros E. apply Hnotin. rewrite E.
    now apply in_map.
Qed.

Lemma sorted_nonempty (assigned : list Course) :
  forall acc,
  Forall (fun infos => lessons infos <> []) (dict_values acc) ->
  Forall (fun infos => lessons infos <> [])
    (dict_values (fold_left keep assigned acc)).
Proof.
  induction assigned as [|c assigned IH]; intros acc Hacc; cbn; [exact Hacc|].
  apply IH. unfold keep_course.
  destruct (to_keep c) as [|l found] eqn:E; cbn; [exact Hacc|].
  apply dict_set_values; [exact Hacc | discriminate].
Qed.

Lemma to_keep_in (course : Course) (lesson : Sequence) :
  In lesson (sequences course) ->
  In (new_lesson slugify lesson) (to_keep course) <->
  (get_lesson_progress progress (courseId course) (seq_id lesson)
     <= threshold)%Q.
Proof.
  intros Hin. unfold lessons_to_do. rewrite in_map_iff. split.
  - intros (l & Heq & Hl). apply filter_In in Hl as [_ Hl].
    apply Qle_bool_iff in Hl.
    assert (seq_id l = seq_id lesson) as <-
        by exact (f_equal lesson_id Heq).
    exact Hl.
  - intros Hle. exists lesson. split; [reflexivity|].
    apply filter_In. split; [exact Hin|]. now apply Qle_bool_iff.
Qed.

(** C5. For assigned courses with distinct ids: a lesson of a course is
    among the lessons kept for that course exactly when its progress is
    at most the threshold, the progress being the reported one or 0 when
    the report has no entry; and a course none of whose lessons is at or
    below the threshold has no entry in the result. *)
Theorem eligible_lessons (assigned : list Course) (course : Course) :
  NoDup (map courseId assigned) ->
  In course assigned ->
  (forall lesson, In lesson (sequences course) ->
     let pc := get_lesson_progress progress (courseId course) (seq_id lesson) in
     (reported progress (courseId course) (seq_id lesson) pc \/
      (pc = 0%Q /\
       forall x, ~ reported progress (courseId course) (seq_id lesson) x)) /\
     ((pc <= threshold)%Q <->
      exists infos,
        dict_get (sorted assigned) (courseId course) = Some infos /\
        In (new_lesson slugify lesson) (lessons infos))) /\
  ((forall lesson, In lesson (sequences course) ->
      ~ (get_lesson_progress progress (courseId course) (seq_id lesson)
           <= threshold)%Q) ->
   dict_get (sorted assigned) (courseId course) = None).
Proof.
  intros Hnd Hin.
  pose proof (keep_in assigned course [] Hnd Hin) as Hget.
  fold (sorted assigned) in Hget. cbn [dict_get] in Hget.
  split.
  - intros lesson Hl pc. subst pc.
    split; [apply get_lesson_progress_cases|].
    rewrite <- (to_keep_in course lesson Hl). revert Hget.
    destruct (to_keep course) as [|l found]; intros Hget; split.
    + intros [].
    + intros (infos & Hsome & _). congruence.
    + intros Hkept. eexists. split; [exact Hget | exact Hkept].
    + intros (infos & Hsome & Hkept). rewrite Hget in Hsome.
      injection Hsome as <-. exact Hkept.
  - intros Hnone. revert Hget.
    destruct (to_keep course) as [|l found] eqn:E; intros Hget;
      [exact Hget|].
    exfalso. assert (Hl : In l (to_keep course)) by (rewrite E; now left).
    unfold lessons_to_do in Hl. apply in_map_iff in Hl as (sq & _ & Hsq).
    apply filter_In in Hsq as [Hsq Hle]. apply Qle_bool_iff in Hle.
    exact (Hnone sq Hsq Hle).
Qed.

Lemma _get_courses_returns (token : string) (st st' : State)
    (courses : dict CourseInfo) :
  _get_courses server slugify token threshold st = (Returns courses, st') ->
  courses <> [] /\ exists assigned report, courses = sort_courses slugify report threshold assigned.
Proof.
  unfold _get_courses, bind, post, lift, exit, ret.
  set (rep := server (exchanges st) _).
  destruct (negb (status_code rep =? 200)); [discriminate|].
  destruct (json_body rep) as [? ?|[[assigned report| |]|] errs]; cbn;
    try discriminate.
  destruct (sort_courses slugify report threshold assigned) eqn:E;
    cbn; [discriminate|].
  intros [= <- _]. split; [discriminate|]. exists assigned, report.
  now rewrite E.
Qed.

End Discovery.

(** ** The time budget *)

Lemma count_lessons_from (courses : dict CourseInfo) :
  forall n,
  fold_left (fun count course => (count + length (lessons (snd course)))%nat)
    courses n = (n + length (all_lessons courses))%nat.
Proof.
  induction courses as [|e courses IH]; intros n; cbn.
  - lia.
  - rewrite IH, length_app. fold (all_lessons courses). lia.
Qed.

Lemma count_lessons_length (courses : dict CourseInfo) :
  count_lessons courses = length (all_lessons courses).
Proof.
  unfold count_lessons. now rewrite count_lessons_from.
Qed.

Lemma total_constant (x : Q) {A : Type} (l : list A) :
  (total (map (fun _ => x) l) == x * inject_Z (Z.of_nat (length l)))%Q.
Proof.
  induction l as [|a l IH]; cbn [map total fold_right length].
  - cbn. ring.
  - fold (total (map (fun _ => x) l)). rewrite IH, Nat2Z.inj_succ.
    unfold Z.succ. rewrite inject_Z_plus. ring.
Qed.

Lemma py_div_returns (x : Q) (n : nat) :
  (1 <= n)%nat -> py_div x n = Returns (fdiv x (float_of_nat n)).
Proof.
  destruct n; [lia | reflexivity].
Qed.

(** C8. When [_get_courses] returns, the lesson count [_calculate_hours]
    divides by is at least 1, and the division goes through. *)
Theorem lessons_to_share (token : string) (threshold hours_todo : Q)
    (st st' : State) (courses : dict CourseInfo) :
  _get_courses server slugify token threshold st = (Returns courses, st') ->
  (1 <= count_lessons courses)%nat /\
  _calculate_hours hours_todo courses =
  Returns (fdiv hours_todo (float_of_nat (count_lessons courses))).
Proof.
  intros Hret.
  destruct (_get_courses_returns _ _ _ _ _ Hret)
    as (Hne & assigned & report & ->).
  assert (Hcount : (1 <= count_lessons (sort_courses slugify report threshold
                                          assigned))%nat).
  { pose proof (sorted_nonempty report threshold assigned [] (Forall_nil _))
      as Hall.
    fold (sort_courses slugify report threshold assigned) in Hall.
    rewrite count_lessons_length.
    destruct (sort_courses slugify report threshold assigned)
      as [|[k infos] rest]; [contradiction|].
    inversion Hall as [|? ? Hinfos _]; subst. cbn in Hinfos |- *.
    rewrite length_app. destruct (lessons infos); [contradiction|cbn; lia]. }
  split; [exact Hcount|]. now apply py_div_returns.
Qed.

Lemma _get_answer_spec (hours : Q) (data : SubmitData) (st : State) :
  _get_answer uuid4 now hours data st =
  (Returns (AddProgress (data_user_id data) [message_at uuid4 now st hours data]),
   {| version := version st; exchanges := exchanges st;
      uniform_calls := uniform_calls st;
      uuid4_calls := S (S (uuid4_calls st));
      now_calls := S (now_calls st) |}).
Proof. reflexivity. Qed.

Section Step.

Variables user_id token course_id : string.
Variable lesson : Lesson.
Variable activity_id : string.
Variable step : Step.

Local Abbreviation data_of := (step_data user_id course_id lesson activity_id step).
Local Abbreviation fragment :=
  (submit_fragment server uuid4 now user_id token course_id lesson
     activity_id step).
Local Abbreviation complete_step :=
  (_complete_step server uuid4 now user_id token course_id lesson
     activity_id step).
Local Abbreviation request :=
  (submission uuid4 now user_id token course_id lesson activity_id step).
Local Abbreviation sent :=
  (sent_fragment uuid4 now user_id token course_id lesson activity_id step).

Lemma submit_fragment_spec (hours : Q) (success : bool) (answer : Answer)
    (st : State) :
  let req := request st hours [answer] in
  let rep := server (exchanges st) req in
  fragment hours success answer st =
  (Returns (success && negb (has_errors (json_body rep))),
   {| version := if success && has_errors (json_body rep)
                 then (version st + 1) mod 2 else version st;
      exchanges := exchanges st ++ [(req, rep)];
      uniform_calls := uniform_calls st;
      uuid4_calls := S (S (uuid4_calls st));
      now_calls := S (now_calls st) |}).
Proof.
  intros req rep. unfold submit_fragment, bind.
  rewrite _get_answer_spec. cbn [post exchanges data_user_id step_data].
  fold (request st hours [answer]). fold req. fold rep.
  unfold _answer_success, bind, get_version, set_version, ret.
  destruct success; cbn [andb]; [destruct (has_errors (json_body rep))|];
    reflexivity.
Qed.

(** The loop of lines 278-290: one exchange per answer; the flag that
    comes out; and the version, flipped once if the flag was still true
    and some reply carries an error list. *)
Lemma fragment_loop (hours : Q) (answers : list Answer) :
  forall (success : bool) (st : State),
  exists new,
    Forall2 (sent hours) answers new /\
    fst (for_fold answers success (fragment hours) st)
      = Returns (success && forallb accepted new) /\
    exchanges (snd (for_fold answers success (fragment hours) st))
      = exchanges st ++ new /\
    version (snd (for_fold answers success (fragment hours) st))
      = if success && negb (forallb accepted new)
        then (version st + 1) mod 2 else version st.
Proof.
  induction answers as [|a rest IH]; intros success st.
  - exists []. cbn. rewrite app_nil_r, andb_true_r, andb_false_r. auto.
  - cbn [for_fold]. unfold bind at 1 2 3.
    rewrite submit_fragment_spec.
    set (req := request st hours [a]).
    set (rep := server (exchanges st) req).
    set (st1 := {| version := _ |}).
    destruct (IH (success && negb (has_errors (json_body rep))) st1)
      as (new & Hsent & Hres & Hlog & Hver).
    exists ((req, rep) :: new). repeat split.
    + constructor; [exists st; reflexivity | exact Hsent].
    + rewrite Hres. cbn [forallb]. unfold accepted at 2. cbn [snd].
      now rewrite andb_assoc.
    + rewrite Hlog. subst st1. cbn [exchanges].
      now rewrite <- app_assoc.
    + rewrite Hver. subst st1. cbn [version forallb].
      unfold accepted at 2. cbn [snd].
      destruct success, (has_errors (json_body rep)),
        (forallb accepted new); reflexivity.
Qed.

Lemma sent_fragments_messages (hours : Q) (answers : list Answer)
    (new : list Exchange) :
  Forall2 (sent hours) answers new ->
  exists messages,
    map fst new = map (fun m => GraphQL token (AddProgress user_id [m])) messages /\
    map msg_answers messages = map (fun a => [a]) answers /\
    Forall (fun m => (msg_activityId m, msg_activityStepId m)
                       = (activity_id, activityStepId step) /\
                     durationMs m = milliseconds hours) messages.
Proof.
  induction 1 as [|a e answers new [st0 He] _ (messages & Hreq & Hans & Hdur)].
  - exists []. auto.
  - exists (message_at uuid4 now st0 hours (data_of [a]) :: messages). cbn [map].
    rewrite He, Hreq, Hans. repeat split. constructor; auto.
Qed.

Lemma format_answers_vocabulary (first : Content) (others : list Content)
    (items : list (list Card)) :
  step_type step = "card" ->
  step_content step = first :: others ->
  additionalContent first = None ->
  carousel first = Some items ->
  format_answers step =
  Returns (Some {| fragmented := true;
                   answers := map card_answer (concat items);
                   title := "Vocabulaire" |}).
Proof.
  intros Htype Hcontent Hvideo Hcarousel. unfold format_answers.
  rewrite Htype, Hcontent, Hvideo, Hcarousel. reflexivity.
Qed.

(** How a step runs once its plan is known. *)
Lemma complete_step_fragmented (plan : Plan) (hours : Q) (st : State) :
  format_answers step = Returns (Some plan) ->
  fragmented plan = true ->
  complete_step hours st =
  match py_div hours (length (answers plan)) with
  | Returns time_to_answer =>
      for_fold (answers plan) true (fragment time_to_answer) st
  | Raises e => (Raises e, st)
  | Exits code => (Exits code, st)
  end.
Proof.
  intros Hplan Hfrag. unfold _complete_step, bind at 1, lift at 1.
  rewrite Hplan, Hfrag. unfold bind at 1, lift.
  destruct (py_div hours (length (answers plan))); reflexivity.
Qed.

Lemma complete_step_single (plan : Plan) (hours : Q) (st : State) :
  format_answers step = Returns (Some plan) ->
  fragmented plan = false ->
  let req := request st hours (answers plan) in
  let rep := server (exchanges st) req in
  complete_step hours st =
  (Returns (status_code rep =? 200),
   {| version := version st;
      exchanges := exchanges st ++ [(req, rep)];
      uniform_calls := uniform_calls st;
      uuid4_calls := S (S (uuid4_calls st));
      now_calls := S (now_calls st) |}).
Proof.
  intros Hplan Hfrag req rep. unfold _complete_step, bind at 1, lift at 1.
  rewrite Hplan, Hfrag. unfold bind. rewrite _get_answer_spec.
  reflexivity.
Qed.

Lemma submitted_wrapped (new : list Exchange) :
  forall messages,
  map fst new = map (fun m => GraphQL token (AddProgress user_id [m])) messages ->
  submitted new = messages.
Proof.
  induction new as [|[req rep] new IH]; intros [|m messages] H;
    try discriminate H; [reflexivity|].
  cbn in H. injection H as -> H. cbn. f_equal. now apply IH.
Qed.

(** Every payload of a step is a [payload_of] its plan. *)
Lemma complete_step_sends (hours : Q) :
  sends (fun m => exists plan,
           format_answers step = Returns (Some plan) /\
           (1 <= fragments plan)%nat /\
           payload_of activity_id step plan hours m)
    (complete_step hours).
Proof.
  intros st.
  destruct (format_answers step) as [[plan|]|e|c] eqn:Hplan;
    try (exists []; unfold _complete_step, bind, lift; rewrite Hplan;
         cbn [snd]; rewrite app_nil_r; split; [reflexivity|constructor]).
  destruct (fragmented plan) eqn:Hfrag.
  - rewrite (complete_step_fragmented _ hours st Hplan Hfrag).
    destruct (answers plan) as [|a rest] eqn:Hans.
    + exists []. cbn. rewrite app_nil_r. split; [reflexivity|constructor].
    + cbn [py_div length].
      set (tta := fdiv hours _).
      destruct (fragment_loop tta (a :: rest) true st)
        as (new & Hsent & _ & Hlog & _).
      exists new. split; [exact Hlog|].
      destruct (sent_fragments_messages _ _ _ Hsent)
        as (messages & Hreq & Hlisted & Hdur).
      rewrite (submitted_wrapped _ _ Hreq).
      apply Forall_forall. intros m Hm.
      rewrite Forall_forall in Hdur. destruct (Hdur m Hm) as [Hids Hms].
      assert (Hone : In (msg_answers m) (map (fun b => [b]) (a :: rest))).
      { rewrite <- Hlisted. apply in_map. exact Hm. }
      apply in_map_iff in Hone. destruct Hone as (answer & Hanswer & Hin).
      exists plan. unfold fragments, payload_of, step_duration.
      rewrite Hfrag, Hans. cbn [length].
      split; [reflexivity|]. split; [lia|].
      split; [exact Hids|]. split; [|exact Hms].
      exists answer. split; [exact Hin | now symmetry].
  - rewrite (complete_step_single _ hours st Hplan Hfrag).
    eexists. split; [reflexivity|]. cbn. constructor; [|constructor].
    exists plan. unfold fragments, payload_of, step_duration. rewrite Hfrag.
    cbn. auto.
Qed.


(** C4. A fragmented step reports success exactly when no reply to its
    fragments carries an error list (it reports nothing, raising
    [ZeroDivisionError], only when there is no fragment at all); a
    single-shot step makes one request and reports success exactly when
    the status code of the reply is 200. *)
Theorem complete_step_success (plan : Plan) (hours : Q) (st : State) :
  format_answers step = Returns (Some plan) ->
  let new := issued (complete_step hours) st in
  if fragmented plan then
    match fst (complete_step hours st) with
    | Returns success =>
        success = true <->
        (forall e, In e new -> has_errors (json_body (snd e)) = false)
    | Raises e => e = ZeroDivisionError /\ answers plan = []
    | Exits _ => False
    end
  else
    exists rep success,
      map snd new = [rep] /\
      fst (complete_step hours st) = Returns success /\
      (success = true <-> status_code rep = 200).
Proof.
  intros Hplan new. subst new. unfold issued.
  destruct (fragmented plan) eqn:Hfrag.
  - rewrite (complete_step_fragmented _ hours st Hplan Hfrag).
    destruct (answers plan) as [|a rest] eqn:Hans; [cbn; auto|].
    cbn [py_div length].
    destruct (fragment_loop (fdiv hours (float_of_nat (S (length rest))))
                (a :: rest) true st) as (new & _ & Hres & Hlog & _).
    rewrite Hres, Hlog, skipn_length_app. cbn [andb].
    rewrite forallb_forall. unfold accepted.
    split; intros H e He; specialize (H e He);
      destruct (has_errors (json_body (snd e))); auto; discriminate.
  - rewrite (complete_step_single _ hours st Hplan Hfrag).
    cbn [fst snd exchanges]. rewrite skipn_length_app.
    eexists. eexists. split; [reflexivity|]. split; [reflexivity|].
    apply Z.eqb_eq.
Qed.

(** C1, as the code has it.  A fragment submitted while the flag of its
    step is still true: a reply with an error list moves the version to
    [(version + 1) mod 2], which differs from the version before, and
    the flag becomes false; a step whose fragments received an error
    list is reported as failed.  A submission whose reply has no error
    list leaves the version alone.  A single-shot submission leaves the
    version alone whatever the reply. *)
Theorem version_after_submission (hours : Q) (st : State) :
  (forall answer,
     let rep := server (exchanges st) (request st hours [answer]) in
     has_errors (json_body rep) = true ->
     version (snd (fragment hours true answer st)) = (version st + 1) mod 2 /\
     version (snd (fragment hours true answer st)) <> version st /\
     fst (fragment hours true answer st) = Returns false) /\
  (forall plan e,
     format_answers step = Returns (Some plan) ->
     fragmented plan = true ->
     In e (issued (complete_step hours) st) ->
     has_errors (json_body (snd e)) = true ->
     fst (complete_step hours st) = Returns false) /\
  (forall success answer,
     let rep := server (exchanges st) (request st hours [answer]) in
     has_errors (json_body rep) = false ->
     version (snd (fragment hours success answer st)) = version st) /\
  (forall plan,
     format_answers step = Returns (Some plan) ->
     fragmented plan = false ->
     version (snd (complete_step hours st)) = version st).
Proof.
  split; [|split; [|split]].
  - intros answer rep Herr. rewrite submit_fragment_spec. cbn.
    subst rep. rewrite Herr. repeat split. apply flip_differs.
  - intros plan e Hplan Hfrag. unfold issued.
    rewrite (complete_step_fragmented _ hours st Hplan Hfrag).
    destruct (py_div hours (length (answers plan))) as [tta|x|c];
      cbn [snd fst]; try (rewrite skipn_all; intros []).
    destruct (fragment_loop tta (answers plan) true st)
      as (new & _ & Hres & Hlog & _).
    rewrite Hres, Hlog, skipn_length_app. intros He Herr. cbn [andb].
    destruct (forallb accepted new) eqn:Hall; [|reflexivity].
    rewrite forallb_forall in Hall. specialize (Hall e He).
    unfold accepted in Hall. rewrite Herr in Hall. discriminate.
  - intros success answer rep Hok. rewrite submit_fragment_spec. cbn.
    subst rep. rewrite Hok. now rewrite andb_false_r.
  - intros plan Hplan Hfrag.
    now rewrite (complete_step_single _ hours st Hplan Hfrag).
Qed.

End Step.

(** ** Lessons *)

Lemma bind_post {A : Type} (req : Request) (k : Response -> M A) (st : State) :
  bind (post server req) k st =
  k (server (exchanges st) req)
    {| version := version st;
       exchanges := exchanges st ++ [(req, server (exchanges st) req)];
       uniform_calls := uniform_calls st;
       uuid4_calls := uuid4_calls st; now_calls := now_calls st |}.
Proof. reflexivity. Qed.

Lemma bind_assoc {A B C : Type} (m : M A) (f : A -> M B) (g : B -> M C)
    (st : State) :
  bind (bind m f) g st = bind m (fun a => bind (f a) g) st.
Proof.
  unfold bind. destruct (m st) as [[a|e|c] st']; reflexivity.
Qed.

Lemma sends_post (P : Message -> Prop) (req : Request) :
  Forall P (messages_of req) -> sends P (post server req).
Proof.
  intros H st. eexists. split; [reflexivity|].
  cbn. now rewrite app_nil_r.
Qed.

Section Lesson.

Variables user_id token course_id : string.
Variable lesson : Lesson.

Hypothesis jitter_range :
  forall n, (0 <= uniform n)%Q /\ (uniform n <= round64 0.1)%Q.



End Lesson.

(** ** The whole run *)

Lemma Forall_True {A : Type} (l : list A) : Forall (fun _ => True) l.
Proof. induction l; constructor; auto. Qed.

Lemma nothing_kept (progress : list CourseProgress) (threshold : Q)
    (assigned : list Course) :
  (forall course lesson,
     In course assigned -> In lesson (sequences course) ->
     (threshold < get_lesson_progress progress (courseId course)
                    (seq_id lesson))%Q) ->
  forall acc,
  fold_left (keep_course slugify progress threshold) assigned acc = acc.
Proof.
  induction assigned as [|c assigned IH]; intros Hall acc; cbn [fold_left];
    [reflexivity|].
  rewrite IH by (intros course lesson Hc; apply Hall; now right).
  unfold keep_course, lessons_to_do.
  rewrite filter_none; [reflexivity|].
  intros lesson Hl. unfold to_do.
  destruct (Qle_bool _ threshold) eqn:E; [|reflexivity].
  apply Qle_bool_iff in E. exfalso.
  apply (Qlt_not_le _ _ (Hall c lesson (or_introl eq_refl) Hl) E).
Qed.

(** C9. Authentication and discovery succeed, and every lesson of every
    assigned course has progress above the threshold: the run makes the
    token request and the discovery query, submits nothing, and leaves
    through [exit(0)]. *)
Theorem no_eligible_lesson (typed_id typed_pass typed_hours : string)
    (hours_todo threshold : Q) (st : State) (user_id token : string)
    (assigned : list Course) (progress : list CourseProgress)
    (errors : option (list json)) :
  let login := TokenRequest typed_id typed_pass in
  let rep := server (exchanges st) login in
  let query := GraphQL token (getCoursesAndProgress "fr-FR") in
  let rep' := server (exchanges st ++ [(login, rep)]) query in
  let run := __init__ server uniform uuid4 now py_float slugify
               typed_id typed_pass typed_hours hours_todo threshold in
  status_code rep = 200 ->
  json_body rep = TokenBody user_id token ->
  status_code rep' = 200 ->
  json_body rep'
    = GraphQLBody (Some (CoursesAndProgress assigned progress)) errors ->
  (forall course lesson,
     In course assigned -> In lesson (sequences course) ->
     (threshold < get_lesson_progress progress (courseId course)
                    (seq_id lesson))%Q) ->
  fst (run st) = Exits 0 /\
  exit_status (fst (run st)) = 0 /\
  issued run st = [(login, rep); (query, rep')] /\
  submitted (issued run st) = [].
Proof.
  intros login rep query rep' run Hstatus Hbody Hstatus' Hbody' Hnone.
  assert (Hrun : run st =
                 (Exits 0,
                  {| version := version st;
                     exchanges := (exchanges st ++ [(login, rep)])
                                  ++ [(query, rep')];
                     uniform_calls := uniform_calls st;
                     uuid4_calls := uuid4_calls st;
                     now_calls := now_calls st |})).
  { subst run. unfold __init__, start, _authenticate.
    rewrite bind_assoc, bind_post. fold login. fold rep.
    rewrite Hstatus, Hbody. cbn -[_get_courses].
    unfold bind at 1, _get_courses. rewrite bind_post.
    cbn [exchanges]. fold query. fold rep'.
    rewrite Hstatus', Hbody'. cbn -[sort_courses].
    unfold sort_courses. rewrite (nothing_kept _ _ _ Hnone). reflexivity. }
  unfold issued. rewrite Hrun. cbn [fst snd exchanges exit_status].
  rewrite <- app_assoc, skipn_length_app. repeat split.
Qed.

Ltac grow :=
  repeat match goal with
    | |- sends _ (_complete_step _ _ _ _ _ _ _ _ _ _) =>
        eapply sends_weaken; [|apply complete_step_sends]; solve [auto]
    | |- sends _ (ret _) => apply sends_ret
    | |- sends _ (lift _) => apply sends_lift
    | |- sends _ (post _ _) => apply sends_post; apply Forall_True
    | |- sends _ (random_uniform _) => apply sends_quiet; reflexivity
    | |- sends _ (set_version _) => apply sends_quiet; reflexivity
    | |- sends _ (bind _ _) => apply sends_bind; [|intros ?; cbv beta]
    | |- sends _ (for_each _ _) => apply sends_for_each; intros ? _
    | |- sends _ (if ?b then _ else _) => destruct b
    | |- sends _ (match ?x with _ => _ end) => destruct x
    end.

Lemma _complete_lesson_grows (user_id token : string) (hours_per_lesson : Q)
    (course_id : string) (lesson : Lesson) :
  grows (_complete_lesson server uniform uuid4 now user_id token
           hours_per_lesson course_id lesson).
Proof.
  unfold grows, _complete_lesson, run_step, exit. cbv zeta. grow.
Qed.

Lemma _get_courses_grows (token : string) (threshold : Q) :
  grows (_get_courses server slugify token threshold).
Proof.
  unfold grows, _get_courses, exit. cbv zeta. grow.
Qed.

(** The run opens with the token request. *)
Lemma start_opens (username password : string) (hours_todo threshold : Q)
    (st : State) :
  let login := TokenRequest username password in
  exists rest,
    exchanges (snd (start server uniform uuid4 now slugify username password
                      hours_todo threshold st))
    = exchanges st ++ (login, server (exchanges st) login) :: rest.
Proof.
  intros login. unfold start, _authenticate.
  rewrite bind_assoc, bind_post. fold login.
  set (st1 := {| version := _ |}).
  set (rest := bind _ _).
  assert (Hrest : grows rest).
  { subst rest. unfold grows, exit. cbv zeta. grow.
    - apply _get_courses_grows.
    - apply _complete_lesson_grows. }
  destruct (Hrest st1) as (new & Hlog & _). exists new.
  rewrite Hlog. subst st1. cbn [exchanges]. now rewrite <- app_assoc.
Qed.

(** The run, once the session is open and discovery has found a lesson:
    every lesson of every course is run with the hours
    [_calculate_hours] returns. *)
Lemma start_lessons (username password : string) (hours_todo threshold : Q)
    (st : State) (user_id token : string) (assigned : list Course)
    (progress : list CourseProgress) (errors : option (list json)) :
  let login := TokenRequest username password in
  let rep := server (exchanges st) login in
  let query := GraphQL token (getCoursesAndProgress "fr-FR") in
  let rep' := server (exchanges st ++ [(login, rep)]) query in
  let courses := sort_courses slugify progress threshold assigned in
  status_code rep = 200 ->
  json_body rep = TokenBody user_id token ->
  status_code rep' = 200 ->
  json_body rep'
    = GraphQLBody (Some (CoursesAndProgress assigned progress)) errors ->
  (1 <= count_lessons courses)%nat ->
  start server uniform uuid4 now slugify username password hours_todo
    threshold st
  = for_each courses (fun entry =>
      let '(course_id, infos) := entry in
      for_each (lessons infos)
        (_complete_lesson server uniform uuid4 now user_id token
           (fdiv hours_todo (float_of_nat (count_lessons courses)))
           course_id))
      (ready st [(login, rep); (query, rep')]).
Proof.
  intros login rep query rep' courses Hstatus Hbody Hstatus' Hbody' HN.
  unfold start, _authenticate.
  rewrite bind_assoc, bind_post. fold login. fold rep.
  rewrite Hstatus, Hbody. cbn -[_get_courses].
  unfold bind at 1, _get_courses. rewrite bind_post.
  cbn [exchanges]. fold query. fold rep'.
  rewrite Hstatus', Hbody'. cbn -[sort_courses _calculate_hours for_each].
  fold courses.
  destruct courses as [|entry others] eqn:E; [cbn in HN; lia|].
  rewrite <- E in *.
  assert (Hlen : (Z.of_nat (length courses) =? 0) = false)
    by (rewrite E; reflexivity).
  rewrite Hlen.
  cbn -[_calculate_hours for_each count_lessons].
  unfold _calculate_hours. rewrite (py_div_returns _ _ HN).
  unfold ready. cbn [exchanges]. rewrite <- app_assoc. reflexivity.
Qed.

(** A lesson, once the server has listed its activities: every step of
    every activity is run with the hours of the lesson divided by the
    number of activities. *)
Lemma lesson_activities (user_id token : string) (hours_per_lesson : Q)
    (course_id : string) (lesson : Lesson) (st : State) (data : Data)
    (activities : list Activity) :
  let fetch := GraphQL token (getSequence course_id (slug lesson) "en-US") in
  let reply := server (exchanges st) fetch in
  get_data (json_body reply) = Returns data ->
  get_activities data = Returns activities ->
  (1 <= length activities)%nat ->
  _complete_lesson server uniform uuid4 now user_id token hours_per_lesson
    course_id lesson st
  = for_each activities (fun activity =>
      for_each (steps activity)
        (run_step server uniform uuid4 now user_id token course_id lesson
           (fdiv hours_per_lesson (float_of_nat (length activities)))
           activity))
      (logged st fetch reply).
Proof.
  intros fetch reply Hdata Hactivities HA.
  unfold _complete_lesson. rewrite bind_post. fold fetch. fold reply.
  cbv zeta. unfold bind at 1, lift at 1. rewrite Hdata.
  unfold bind at 1, lift at 1. rewrite Hactivities.
  unfold bind at 1, lift at 1. rewrite (py_div_returns _ _ HA).
  reflexivity.
Qed.

(** C6. With [N >= 1] lessons discovered, the run gives every lesson the
    hours [_calculate_hours] returns, [hours_todo / N] within the
    tolerance of one float division, so that the hours of all lessons sum
    to [hours_todo] within tolerance; and a lesson for which the server
    lists [A >= 1] activities runs every step of every activity with its
    hours divided by [A], within the same tolerance, so that [A] such
    shares make up the hours of the lesson within tolerance. *)
Theorem even_split (username password : string) (hours_todo threshold : Q)
    (st : State) (user_id token : string) (assigned : list Course)
    (progress : list CourseProgress) (errors : option (list json)) :
  let login := TokenRequest username password in
  let rep := server (exchanges st) login in
  let query := GraphQL token (getCoursesAndProgress "fr-FR") in
  let rep' := server (exchanges st ++ [(login, rep)]) query in
  let courses := sort_courses slugify progress threshold assigned in
  let N := inject_Z (Z.of_nat (count_lessons courses)) in
  status_code rep = 200 ->
  json_body rep = TokenBody user_id token ->
  status_code rep' = 200 ->
  json_body rep'
    = GraphQLBody (Some (CoursesAndProgress assigned progress)) errors ->
  (1 <= count_lessons courses)%nat ->
  exists hours_per_lesson,
    _calculate_hours hours_todo courses = Returns hours_per_lesson /\
    start server uniform uuid4 now slugify username password hours_todo
      threshold st
    = for_each courses (fun entry =>
        let '(course_id, infos) := entry in
        for_each (lessons infos)
          (_complete_lesson server uniform uuid4 now user_id token
             hours_per_lesson course_id))
        (ready st [(login, rep); (query, rep')]) /\
    close hours_per_lesson (hours_todo / N) tiny /\
    close (total (map (fun _ => hours_per_lesson) (all_lessons courses)))
      hours_todo (N * tiny) /\
    forall (course_id : string) (lesson : Lesson) (st0 : State) (data : Data)
           (activities : list Activity),
      let fetch :=
        GraphQL token (getSequence course_id (slug lesson) "en-US") in
      let reply := server (exchanges st0) fetch in
      let A := inject_Z (Z.of_nat (length activities)) in
      get_data (json_body reply) = Returns data ->
      get_activities data = Returns activities ->
      (1 <= length activities)%nat ->
      exists hours_per_activity,
        py_div hours_per_lesson (length activities)
          = Returns hours_per_activity /\
        _complete_lesson server uniform uuid4 now user_id token
          hours_per_lesson course_id lesson st0
        = for_each activities (fun activity =>
            for_each (steps activity)
              (run_step server uniform uuid4 now user_id token course_id
                 lesson hours_per_activity activity))
            (logged st0 fetch reply) /\
        close hours_per_activity (hours_per_lesson / A) tiny /\
        close (hours_per_activity * A) hours_per_lesson (A * tiny).
Proof.
  intros login rep query rep' courses N Hstatus Hbody Hstatus' Hbody' HN.
  exists (fdiv hours_todo (float_of_nat (count_lessons courses))).
  split; [unfold _calculate_hours; now apply py_div_returns|].
  split; [now apply (start_lessons _ _ _ _ _ _ _ _ _ errors)|].
  pose proof (fdiv_nat_close hours_todo _ HN) as Hclose. fold N in Hclose.
  split; [exact Hclose|].
  split.
  { pose proof (parts_close _ _ _ HN Hclose) as Hsum. fold N in Hsum.
    unfold close in *.
    rewrite total_constant, <- count_lessons_length. exact Hsum. }
  intros course_id lesson st0 data activities fetch reply A Hdata Hacts HA.
  exists (fdiv (fdiv hours_todo (float_of_nat (count_lessons courses)))
            (float_of_nat (length activities))).
  split; [now apply py_div_returns|].
  split; [now apply lesson_activities with (data := data)|].
  pose proof (fdiv_nat_close
                (fdiv hours_todo (float_of_nat (count_lessons courses)))
                _ HA) as Hpart.
  fold A in Hpart.
  split; [exact Hpart|].
  apply (parts_close _ _ _ HA Hpart).
Qed.

(** C10. Hours that [float] cannot read do not stop the run: it is the
    run with 20 hours, and it goes on to the token request; hours that
    [float] reads are the hours of the run. *)
Theorem unreadable_hours (typed_id typed_pass typed_hours : string) :
  let run := main server uniform uuid4 now py_float slugify
               typed_id typed_pass typed_hours in
  let run_with := start server uniform uuid4 now slugify typed_id typed_pass in
  (py_float typed_hours = None ->
   forall st, run st = run_with 20%Q (round64 0.2) st) /\
  (forall hours, py_float typed_hours = Some hours ->
                 forall st, run st = run_with hours (round64 0.2) st) /\
  (forall st, exists rest,
      exchanges (snd (run st))
      = exchanges st
        ++ (TokenRequest typed_id typed_pass,
            server (exchanges st) (TokenRequest typed_id typed_pass)) :: rest).
Proof.
  intros run run_with. subst run run_with.
  unfold main, __init__, read_hours_todo. repeat split.
  - intros Hfloat st. now rewrite Hfloat.
  - intros hours Hfloat st. now rewrite Hfloat.
  - intros st. apply start_opens.
Qed.

End Properties.

(** * The claims on a concrete run *)

Section Concrete.

Import Demo.

Local Abbreviation complete_step :=
  (_complete_step server uuid4 now "u1" "t1" "c1" lesson).
Local Abbreviation complete_lesson :=
  (_complete_lesson server uniform uuid4 now "u1" "t1" 5%Q "c1" lesson).

(** Discovery on the demo data: "l1" has no reported progress, "l2" sits on
    the threshold, "l3" is above it, and course "c2" has nothing left. *)
Example discovery_demo :
  sort_courses slugify progress 0.2 courses
  = [ ("c1", {| info_title := "Business";
                lessons := [ {| lesson_id := "l1"; lesson_title := "hello";
                                slug := "hello" |};
                             {| lesson_id := "l2"; lesson_title := "meeting";
                                slug := "meeting" |} ] |}) ].
Proof. reflexivity. Qed.

(** A whole run with 10 hours: schema version, step and duration of every
    payload, in the order sent.  The rejected multiple-choice payload keeps
    version 1; the first rejected card moves the run to version 0. *)
Example run_demo :
  let run := main server uniform uuid4 now decimal slugify "me" "secret" "10" in
  fst (run boot) = Returns tt /\
  map (fun m => (msg_version m, msg_activityStepId m, durationMs m))
    (submitted (exchanges (snd (run boot))))
  = [ (1, "s1", 9450000); (1, "s2", 3150000); (0, "s2", 3150000);
      (0, "s2", 3150000);
      (0, "s1", 9450000); (0, "s2", 3150000); (0, "s2", 3150000);
      (0, "s2", 3150000) ].
Proof. split; vm_compute; reflexivity. Qed.

(** C3. A "card" step whose first content element has neither
    [additionalContent] nor [carousel]: [format_answers] returns [None],
    no plan, and [_complete_step], which subscripts the result, raises
    [TypeError]. *)
Theorem format_answers_card_without_plan :
  format_answers grammar = Returns None /\
  fst (complete_step "a1" grammar 1%Q started) = Raises TypeError.
Proof. split; reflexivity. Qed.

(** C1 fails on a single-shot submission: the reply to a multiple-choice
    step carries an error list, and the version after the submission is
    the version before it, the submission being reported as a success. *)
Lemma single_shot_counterexample :
  let run := complete_step "a1" choice 1%Q in
  format_answers choice = Returns (Some choice_plan) /\
  map (fun e => has_errors (json_body (snd e))) (issued run started) = [true] /\
  ~ (version (snd (run started)) <> version started) /\
  fst (run started) = Returns true.
Proof.
  cbv zeta. repeat split. intros H. apply H. reflexivity.
Qed.


(** C5 fails when two assigned courses share an id: line 216 stores the
    lessons kept for the second under the key of the first and replaces
    them, so the lesson of the first course, whose progress is 0 and at
    most the threshold, is not among the lessons of the result. *)
Lemma shared_course_id_counterexample :
  let hello := {| seq_id := "l1"; seq_title := "hello" |} in
  let travel := {| seq_id := "l3"; seq_title := "travel" |} in
  let first := {| courseId := "c1"; course_title := "Business";
                  sequences := [hello] |} in
  let second := {| courseId := "c1"; course_title := "Business, again";
                   sequences := [travel] |} in
  let found := sort_courses slugify [] 0.2 [first; second] in
  In first [first; second] /\
  In hello (sequences first) /\
  get_lesson_progress [] (courseId first) (seq_id hello) = 0%Q /\
  (get_lesson_progress [] (courseId first) (seq_id hello) <= 0.2)%Q /\
  found = [ ("c1", {| info_title := "Business, again";
                      lessons := [new_lesson slugify travel] |}) ] /\
  ~ (exists infos,
       dict_get found (courseId first) = Some infos /\
       In (new_lesson slugify hello) (lessons infos)) /\
  ~ In (new_lesson slugify hello) (all_lessons found).
Proof.
  cbv zeta. split; [left; reflexivity|]. split; [left; reflexivity|].
  split; [reflexivity|]. split; [discriminate|]. split; [reflexivity|].
  split.
  - intros (infos & Hget & Hin). vm_compute in Hget. injection Hget as <-.
    destruct Hin as [Hin|[]]. discriminate Hin.
  - intros [Hin|[]]. discriminate Hin.
Qed.

(** Binary64 arithmetic at work: the float nearest to 0.1; the payload of
    a single-shot step when a lesson of 4 hours has 9 activities and the
    jitter is 0; the milliseconds in 0.57 and in 0.29 hours; the whole
    minutes in 2.05 and in 0.35 hours. *)
Example binary64_demo :
  Qred (round64 0.1) = 3602879701896397 # 36028797018963968 /\
  (forall share, py_div 4 9 = Returns share ->
                 milliseconds (fadd share (fmul share 0)) = 1599999) /\
  milliseconds (round64 0.57) = 2051999 /\
  milliseconds (round64 0.29) = 1044000 /\
  int (fmul (round64 2.05) 60) = 122 /\
  int (fmul (round64 0.35) 60) = 21.
Proof.
  split; [vm_compute; reflexivity|].
  split; [intros share [= <-]; vm_compute; reflexivity|].
  repeat split; vm_compute; reflexivity.
Qed.

(** *** The theorems at work *)

Lemma version_after_submission_witness :
  let fragment := submit_fragment server uuid4 now "u1" "t1" "c1" lesson "a2"
                    words 1%Q in
  let accepting := {| version := 0; exchanges := []; uniform_calls := O;
                      uuid4_calls := O; now_calls := O |} in
  (version (snd (fragment true (card_answer {| card_id := "k1" |}) started)) = 0 /\
   version (snd (fragment true (card_answer {| card_id := "k1" |}) started))
     <> version started /\
   fst (fragment true (card_answer {| card_id := "k1" |}) started)
     = Returns false) /\
  fst (complete_step "a2" words 1%Q started) = Returns false /\
  version (snd (fragment true (card_answer {| card_id := "k1" |}) accepting))
    = version accepting /\
  version (snd (complete_step "a1" choice 1%Q started)) = version started.
Proof.
  cbv zeta.
  destruct (version_after_submission server uuid4 now "u1" "t1" "c1" lesson
              "a2" words 1%Q started) as (Hflip & Hfail & _ & _).
  destruct (version_after_submission server uuid4 now "u1" "t1" "c1" lesson
              "a2" words 1%Q
              {| version := 0; exchanges := []; uniform_calls := O;
                 uuid4_calls := O; now_calls := O |}) as (_ & _ & Hkeep & _).
  destruct (version_after_submission server uuid4 now "u1" "t1" "c1" lesson
              "a1" choice 1%Q started) as (_ & _ & _ & Hsingle).
  split; [|split; [|split]].
  - apply Hflip. reflexivity.
  - apply (Hfail words_plan
             (submission uuid4 now "u1" "t1" "c1" lesson "a2" words started
                (fdiv 1 (float_of_nat 3)) [card_answer {| card_id := "k1" |}],
              rejected));
      [reflexivity | reflexivity | vm_compute; left; reflexivity | reflexivity].
  - apply Hkeep. reflexivity.
  - apply (Hsingle choice_plan); reflexivity.
Defined.


Lemma complete_step_success_witness :
  format_answers words = Returns (Some words_plan) /\
  match fst (complete_step "a2" words 1%Q started) with
  | Returns success =>
      success = true <->
      (forall e, In e (issued (complete_step "a2" words 1%Q) started) ->
                 has_errors (json_body (snd e)) = false)
  | Raises e => e = ZeroDivisionError /\ answers words_plan = []
  | Exits _ => False
  end.
Proof.
  split; [reflexivity|].
  apply (complete_step_success server uuid4 now "u1" "t1" "c1" lesson "a2"
           words words_plan 1%Q started).
  reflexivity.
Defined.

Lemma eligible_lessons_witness :
  let course := {| courseId := "c1"; course_title := "Business";
                   sequences := [ {| seq_id := "l1"; seq_title := "hello" |};
                                  {| seq_id := "l2"; seq_title := "meeting" |};
                                  {| seq_id := "l3"; seq_title := "travel" |} ] |} in
  NoDup (map courseId courses) /\
  In course courses /\
  (forall lesson, In lesson (sequences course) ->
     let pc := get_lesson_progress progress (courseId course) (seq_id lesson) in
     (reported progress (courseId course) (seq_id lesson) pc \/
      (pc = 0%Q /\
       forall x, ~ reported progress (courseId course) (seq_id lesson) x)) /\
     ((pc <= 0.2)%Q <->
      exists infos,
        dict_get (sort_courses slugify progress 0.2 courses) (courseId course)
          = Some infos /\
        In (new_lesson slugify lesson) (lessons infos))) /\
  ((forall lesson, In lesson (sequences course) ->
      ~ (get_lesson_progress progress (courseId course) (seq_id lesson)
           <= 0.2)%Q) ->
   dict_get (sort_courses slugify progress 0.2 courses) (courseId course) = None).
Proof.
  intros course.
  assert (Hnd : NoDup (map courseId courses)).
  { cbn. repeat constructor; cbn; intuition discriminate. }
  assert (Hin : In course courses) by (left; reflexivity).
  split; [exact Hnd|]. split; [exact Hin|].
  exact (eligible_lessons slugify progress 0.2%Q courses course Hnd Hin).
Defined.

Lemma even_split_witness :
  let found := sort_courses slugify progress 0.2 courses in
  let login := (TokenRequest "me" "secret", ok (TokenBody "u1" "t1")) in
  let query := (GraphQL "t1" (getCoursesAndProgress "fr-FR"),
                ok (GraphQLBody (Some (CoursesAndProgress courses progress))
                      None)) in
  let fetch := (GraphQL "t1" (getSequence "c1" "hello" "en-US"),
                ok (GraphQLBody (Some (SequenceData (Some activities))) None)) in
  (1 <= count_lessons found)%nat /\
  (1 <= length activities)%nat /\
  exists hours_per_lesson hours_per_activity,
    _calculate_hours 10 found = Returns hours_per_lesson /\
    start server uniform uuid4 now slugify "me" "secret" 10 0.2 boot
    = for_each found (fun entry =>
        let '(course_id, infos) := entry in
        for_each (lessons infos)
          (_complete_lesson server uniform uuid4 now "u1" "t1"
             hours_per_lesson course_id))
        (ready boot [login; query]) /\
    close hours_per_lesson (10 / 2) tiny /\
    close (total (map (fun _ => hours_per_lesson) (all_lessons found)))
      10 (2 * tiny) /\
    py_div hours_per_lesson (length activities) = Returns hours_per_activity /\
    _complete_lesson server uniform uuid4 now "u1" "t1" hours_per_lesson
      "c1" lesson started
    = for_each activities (fun activity =>
        for_each (steps activity)
          (run_step server uniform uuid4 now "u1" "t1" "c1" lesson
             hours_per_activity activity))
        (logged started (fst fetch) (snd fetch)) /\
    close hours_per_activity (hours_per_lesson / 2) tiny /\
    close (hours_per_activity * 2) hours_per_lesson (2 * tiny).
Proof.
  intros found login query fetch.
  assert (HN : (1 <= count_lessons found)%nat) by (vm_compute; lia).
  assert (HA : (1 <= length activities)%nat) by (vm_compute; lia).
  split; [exact HN|]. split; [exact HA|].
  destruct (even_split server uniform uuid4 now slugify "me" "secret" 10%Q
              0.2%Q boot "u1" "t1" courses progress None
              eq_refl eq_refl eq_refl eq_refl HN)
    as (hours_per_lesson & Hhours & Hrun & Hclose & Hsum & Hlesson).
  destruct (Hlesson "c1" lesson started (SequenceData (Some activities))
              activities
              eq_refl eq_refl HA)
    as (hours_per_activity & Hshare & Hsteps & Hpart & Hparts).
  exists hours_per_lesson, hours_per_activity.
  repeat (split; [assumption|]). assumption.
Defined.


Lemma lessons_to_share_witness :
  let found := sort_courses slugify progress 0.2 courses in
  (1 <= count_lessons found)%nat /\
  _calculate_hours 10 found
    = Returns (fdiv 10 (float_of_nat (count_lessons found))).
Proof.
  intros found.
  apply (lessons_to_share server slugify "t1" 0.2%Q 10%Q started
           (snd (_get_courses server slugify "t1" 0.2%Q started)) found).
  reflexivity.
Defined.

Lemma no_eligible_lesson_witness :
  let run := __init__ idle_server uniform uuid4 now decimal slugify
               "me" "secret" "10" 20%Q 0.2%Q in
  fst (run boot) = Exits 0 /\
  exit_status (fst (run boot)) = 0 /\
  issued run boot
    = [ (TokenRequest "me" "secret", ok (TokenBody "u1" "t1"));
        (GraphQL "t1" (getCoursesAndProgress "fr-FR"),
         ok (GraphQLBody (Some (CoursesAndProgress courses finished)) None)) ] /\
  submitted (issued run boot) = [].
Proof.
  apply (no_eligible_lesson idle_server uniform uuid4 now decimal slugify
           "me" "secret" "10" 20%Q 0.2%Q boot "u1" "t1" courses finished None);
    try reflexivity.
  intros course lesson Hc Hl.
  repeat (destruct Hc as [<-|Hc]); try (destruct Hc);
    repeat (destruct Hl as [<-|Hl]); try (destruct Hl); reflexivity.
Defined.

Lemma unreadable_hours_witness :
  decimal "a lot" = None /\
  decimal "7.5" = Some (round64 7.5) /\
  main server uniform uuid4 now decimal slugify "me" "secret" "a lot" boot
    = start server uniform uuid4 now slugify "me" "secret" 20 (round64 0.2)
        boot /\
  main server uniform uuid4 now decimal slugify "me" "secret" "7.5" boot
    = start server uniform uuid4 now slugify "me" "secret" (round64 7.5)
        (round64 0.2) boot /\
  exists rest,
    exchanges (snd (main server uniform uuid4 now decimal slugify
                      "me" "secret" "a lot" boot))
    = (TokenRequest "me" "secret", ok (TokenBody "u1" "t1")) :: rest.
Proof.
  destruct (unreadable_hours server uniform uuid4 now decimal slugify
              "me" "secret" "a lot") as (Hdefault & _ & Hgoes).
  destruct (unreadable_hours server uniform uuid4 now decimal slugify
              "me" "secret" "7.5") as (_ & Hread & _).
  split; [reflexivity|]. split; [reflexivity|].
  split; [apply Hdefault; reflexivity|].
  split; [apply Hread; reflexivity|].
  exact (Hgoes boot).
Defined.

End Concrete.


(** * Further properties of the code *)

(** ** [format_answers] *)

(** Which steps get a plan.  [format_answers] returns [None] exactly for a
    "card" step whose first content element has neither key; it raises,
    and then [IndexError], exactly for a "card" step without content; it
    never leaves the process.  A plan it returns has every answer marked
    correct, and a single-shot plan lists the correct answers of the step in
    their order. *)
Theorem format_answers_outcomes (step : Step) :
  (format_answers step = Returns None <->
   step_type step = "card" /\
   exists first others,
     step_content step = first :: others /\
     additionalContent first = None /\ carousel first = None) /\
  (forall e, format_answers step = Raises e <->
             e = IndexError /\ step_type step = "card" /\ step_content step = []) /\
  (forall code, format_answers step <> Exits code) /\
  (forall plan, format_answers step = Returns (Some plan) ->
     Forall (fun a => correct a = true) (answers plan) /\
     (fragmented plan = false ->
      answers plan = map right_answer (step_correct step))).
Proof.
  assert (Hright : forall l, Forall (fun a => correct a = true)
                               (map right_answer l)).
  { intros l. apply Forall_forall. intros a Ha.
    apply in_map_iff in Ha as (x & <- & _). reflexivity. }
  assert (Hcards : forall l, Forall (fun a => correct a = true)
                               (map card_answer l)).
  { intros l. apply Forall_forall. intros a Ha.
    apply in_map_iff in Ha as (x & <- & _). reflexivity. }
  unfold format_answers.
  destruct (String.eqb_spec (step_type step) "card") as [Hcard|Hcard].
  - destruct (step_content step) as [|first others].
    + split; [|split; [|split]].
      * split; [discriminate|]. intros (_ & f & o & H & _). discriminate H.
      * intros e. split; [intros [= <-]; auto|]. intros (-> & _). reflexivity.
      * discriminate.
      * discriminate.
    + destruct (additionalContent first) as [video|] eqn:Hvideo;
        [|destruct (carousel first) as [items|] eqn:Hcarousel];
        (split; [|split; [|split]]); try discriminate.
      * split; [discriminate|].
        intros (_ & f & o & [= <- <-] & H & _). congruence.
      * intros e. split; [discriminate|]. intros (_ & _ & H). discriminate H.
      * intros plan [= <-]. cbn. auto.
      * split; [discriminate|].
        intros (_ & f & o & [= <- <-] & _ & H). congruence.
      * intros e. split; [discriminate|]. intros (_ & _ & H). discriminate H.
      * intros plan [= <-]. cbn. split; [auto | discriminate].
      * split; [|reflexivity]. intros _. split; [exact Hcard|].
        exists first, others. auto.
      * intros e. split; [discriminate|]. intros (_ & _ & H). discriminate H.
  - split; [|split; [|split]]; try discriminate.
    + split; [discriminate|]. intros (H & _). contradiction.
    + intros e. split; [discriminate|]. intros (_ & H & _). contradiction.
    + intros plan [= <-]. cbn. auto.
Qed.

(** ** [get_lesson_progress] and [get_activity_title] *)

(** The first entry wins.  In a progress report, the entries for the course
    that come first and do not list the lesson are passed over, and the
    progress returned is that of the first sequence with the lesson's id in
    the first entry that lists it, whatever comes after. *)
Theorem first_report_wins (before after : list CourseProgress)
    (entry : CourseProgress) (earlier later : list SequenceProgress)
    (sequence : SequenceProgress) (course_id lesson : string) :
  (forall c, In c before -> cp_courseId c = course_id ->
             forall x, In x (cp_sequences c) -> sp_id x <> lesson) ->
  cp_courseId entry = course_id ->
  cp_sequences entry = earlier ++ sequence :: later ->
  (forall x, In x earlier -> sp_id x <> lesson) ->
  sp_id sequence = lesson ->
  get_lesson_progress (before ++ entry :: after) course_id lesson
  = percentComplete sequence.
Proof.
  intros Hbefore Hentry Hseqs Hearlier Hseq.
  assert (Hfind : forall l, (forall x, In x l -> sp_id x <> lesson) ->
                  forall rest, find_sequence (l ++ rest) lesson
                               = find_sequence rest lesson).
  { induction l as [|x l IH]; intros Hl rest; cbn; [reflexivity|].
    destruct (String.eqb_spec (sp_id x) lesson) as [E|_].
    - exfalso. exact (Hl x (or_introl eq_refl) E).
    - apply IH. intros y Hy. apply Hl. now right. }
  induction before as [|c before IH]; cbn.
  - rewrite Hentry, String.eqb_refl. cbn. rewrite Hseqs, Hfind by assumption.
    cbn. rewrite Hseq, String.eqb_refl. reflexivity.
  - assert (IH' := IH (fun c' Hc' => Hbefore c' (or_intror Hc'))).
    destruct (String.eqb_spec (cp_courseId c) course_id) as [E|_]; cbn;
      [|exact IH'].
    pose proof (Hfind (cp_sequences c)
                  (Hbefore c (or_introl eq_refl) E) []) as Hnone.
    rewrite app_nil_r in Hnone. rewrite Hnone. cbn. exact IH'.
Qed.

(** The title of an activity is the text of its first "fr-FR" title, and
    [None] exactly when it has no "fr-FR" title. *)
Theorem french_title (activity : Activity) :
  (forall before language after,
     titles activity = before ++ language :: after ->
     (forall t, In t before -> locale t <> "fr-FR") ->
     locale language = "fr-FR" ->
     get_activity_title activity = Some (text language)) /\
  (get_activity_title activity = None <->
   forall t, In t (titles activity) -> locale t <> "fr-FR").
Proof.
  unfold get_activity_title. generalize (titles activity) as l. intros l. split.
  - intros before language after -> Hbefore Hfr.
    induction before as [|t before IH]; cbn.
    + now rewrite Hfr.
    + destruct (String.eqb_spec (locale t) "fr-FR") as [E|_].
      * exfalso. exact (Hbefore t (or_introl eq_refl) E).
      * apply IH. intros x Hx. apply Hbefore. now right.
  - induction l as [|t l IH]; cbn.
    + split; [intros _ x []|reflexivity].
    + destruct (String.eqb_spec (locale t) "fr-FR") as [E|E].
      * split; [discriminate|]. intros H. exfalso.
        exact (H t (or_introl eq_refl) E).
      * rewrite IH. split.
        -- intros H x [<-|Hx]; auto.
        -- intros H x Hx. apply H. now right.
Qed.

(** ** [log_exercise] *)




(** ** Discovery *)

Lemma dict_get_none_keys {V : Type} (d : dict V) (k : string) :
  dict_get d k = None <-> ~ In k (dict_keys d).
Proof.
  unfold dict_keys.
  induction d as [|[k' v] d IH]; cbn.
  - split; auto.
  - destruct (String.eqb_spec k' k) as [->|E].
    + split; [discriminate|]. intros H. exfalso. apply H. now left.
    + rewrite IH. split; [intros H [H'|H']; auto|]. intros H H'. apply H.
      now right.
Qed.

Lemma dict_set_absent {V : Type} (d : dict V) (k : string) (v : V) :
  ~ In k (dict_keys d) -> dict_set d k v = d ++ [(k, v)].
Proof.
  unfold dict_keys.
  induction d as [|[k' v'] d IH]; cbn; intros H; [reflexivity|].
  destruct (String.eqb_spec k' k) as [E|_].
  - exfalso. apply H. now left.
  - rewrite IH; [reflexivity|]. intros H'. apply H. now right.
Qed.

Lemma dict_set_present {V : Type} (d : dict V) (k : string) (v : V) :
  In k (dict_keys d) -> dict_keys (dict_set d k v) = dict_keys d.
Proof.
  unfold dict_keys.
  induction d as [|[k' v'] d IH]; cbn; intros H; [destruct H|].
  destruct (String.eqb_spec k' k) as [->|E]; cbn; [reflexivity|].
  rewrite IH; [reflexivity|]. destruct H; [contradiction|assumption].
Qed.

Lemma dict_set_keys_NoDup {V : Type} (d : dict V) (k : string) (v : V) :
  NoDup (dict_keys d) -> NoDup (dict_keys (dict_set d k v)).
Proof.
  intros Hnd. destruct (in_dec string_dec k (dict_keys d)) as [Hin|Hout].
  - now rewrite dict_set_present.
  - rewrite dict_set_absent by assumption. unfold dict_keys.
    rewrite map_app. cbn. apply NoDup_app; auto.
    + repeat constructor. intros [].
    + intros x Hx [<-|[]]. contradiction.
Qed.

Section FurtherDiscovery.

Variable slugify : string -> string.
Variable progress : list CourseProgress.
Variable threshold : Q.

Local Abbreviation keep := (keep_course slugify progress threshold).
Local Abbreviation to_keep := (lessons_to_do slugify progress threshold).

Lemma kept_entries (assigned : list Course) :
  forall acc k infos,
  dict_get (fold_left keep assigned acc) k = Some infos ->
  dict_get acc k = Some infos \/
  exists course,
    In course assigned /\ courseId course = k /\
    infos = {| info_title := course_title course; lessons := to_keep course |}.
Proof.
  induction assigned as [|c assigned IH]; intros acc k infos H; cbn in H;
    [now left|].
  destruct (IH _ _ _ H) as [Hacc|(course & Hin & Hid & Hinfos)].
  - unfold keep_course in Hacc. destruct (0 <? _); [|now left].
    destruct (string_dec (courseId c) k) as [E|E].
    + rewrite E, dict_get_set_same in Hacc. injection Hacc as <-.
      right. exists c. repeat split; auto. now left.
    + rewrite dict_get_set_other in Hacc by assumption. now left.
  - right. exists course. repeat split; auto. now right.
Qed.

(** Whatever the server lists, the dictionary [_get_courses] builds has no
    course id twice, every entry of it has at least one lesson, and every
    entry is that of an assigned course: its title and its lessons at or
    below the threshold. *)
Theorem discovery_entries (assigned : list Course) :
  let courses := sort_courses slugify progress threshold assigned in
  NoDup (dict_keys courses) /\
  Forall (fun infos => lessons infos <> []) (dict_values courses) /\
  forall k infos,
    dict_get courses k = Some infos ->
    exists course,
      In course assigned /\ courseId course = k /\
      infos = {| info_title := course_title course;
                 lessons := to_keep course |}.
Proof.
  intros courses. subst courses. unfold sort_courses. split; [|split].
  - generalize (NoDup_nil string).
    change (@nil string) with (dict_keys (@nil (string * CourseInfo))).
    generalize (@nil (string * CourseInfo)) as acc.
    induction assigned as [|c assigned IH]; intros acc Hacc; cbn; [exact Hacc|].
    apply IH. unfold keep_course. destruct (0 <? _); [|exact Hacc].
    now apply dict_set_keys_NoDup.
  - apply sorted_nonempty. constructor.
  - intros k infos H. destruct (kept_entries _ _ _ _ H) as [Hnil|Hc];
      [discriminate Hnil | exact Hc].
Qed.

(** With distinct course ids, the dictionary lists the courses that have a
    lesson to do in the order in which the server assigned them, each with
    its lessons in the order of the course. *)
Theorem discovery_order (assigned : list Course) :
  NoDup (map courseId assigned) ->
  sort_courses slugify progress threshold assigned
  = map (fun course =>
           (courseId course,
            {| info_title := course_title course;
               lessons := map (new_lesson slugify)
                            (filter (fun lesson =>
                                       Qle_bool
                                         (get_lesson_progress progress
                                            (courseId course) (seq_id lesson))
                                         threshold)
                               (sequences course)) |}))
      (filter (fun course =>
                 existsb (fun lesson =>
                            Qle_bool
                              (get_lesson_progress progress (courseId course)
                                 (seq_id lesson))
                              threshold)
                   (sequences course))
         assigned).
Proof.
  intros Hnd. unfold sort_courses.
  change (fold_left keep assigned [] = [] ++ map (fun course => (courseId course,
            {| info_title := course_title course; lessons := to_keep course |}))
            (filter (fun course => existsb (to_do progress threshold (courseId course))
                                     (sequences course)) assigned)).
  assert (Hnd' : NoDup (dict_keys (@nil (string * CourseInfo))
                        ++ map courseId assigned)) by exact Hnd.
  revert Hnd'. generalize (@nil (string * CourseInfo)) as acc. clear Hnd.
  induction assigned as [|c assigned IH]; intros acc Hnd; cbn [fold_left filter].
  - cbn. now rewrite app_nil_r.
  - cbn [map] in Hnd.
    assert (Hsome : existsb (to_do progress threshold (courseId c)) (sequences c)
                    = (0 <? Z.of_nat (length (to_keep c)))).
    { unfold lessons_to_do. rewrite length_map.
      induction (sequences c) as [|l ls IHl]; cbn; [reflexivity|].
      destruct (to_do progress threshold (courseId c) l); cbn; [|exact IHl].
      first [reflexivity | symmetry; apply Z.ltb_lt; lia]. }
    rewrite Hsome. unfold keep_course at 2.
    destruct (0 <? Z.of_nat (length (to_keep c))).
    + rewrite dict_set_absent.
      * rewrite IH.
        -- cbn [map]. now rewrite <- app_assoc.
        -- unfold dict_keys in *. rewrite map_app, <- app_assoc. exact Hnd.
      * apply NoDup_remove_2 in Hnd. intros H. apply Hnd.
        apply in_or_app. now left.
    + apply IH. now apply NoDup_remove_1 in Hnd.
Qed.

End FurtherDiscovery.

(** ** Steps and lessons *)

Section FurtherSteps.

Variable server : list Exchange -> Request -> Response.
Variable uniform : nat -> Q.
Variable uuid4 : nat -> string.
Variable now : nat -> string.
Variables user_id token course_id : string.
Variable lesson : Lesson.

Local Abbreviation complete_step :=
  (_complete_step server uuid4 now user_id token course_id lesson).
Local Abbreviation fragment :=
  (submit_fragment server uuid4 now user_id token course_id lesson).
Local Abbreviation complete_lesson :=
  (_complete_lesson server uniform uuid4 now user_id token).



(** A step without anything to send leaves the state as it found it: a
    "card" step without content raises [IndexError]; one whose first
    content element has neither key raises [TypeError]; a vocabulary step
    whose carousel has no card raises [ZeroDivisionError]. *)
Theorem step_without_request (activity_id : string) (step : Step) (hours : Q)
    (st : State) :
  step_type step = "card" ->
  (step_content step = [] ->
   complete_step activity_id step hours st = (Raises IndexError, st)) /\
  (forall first others,
     step_content step = first :: others ->
     additionalContent first = None ->
     (carousel first = None ->
      complete_step activity_id step hours st = (Raises TypeError, st)) /\
     (forall items,
        carousel first = Some items -> concat items = [] ->
        complete_step activity_id step hours st
        = (Raises ZeroDivisionError, st))).
Proof.
  intros Hcard. unfold _complete_step, format_answers, bind, lift.
  rewrite Hcard. cbn [String.eqb Ascii.eqb Bool.eqb andb]. split.
  - intros ->. reflexivity.
  - intros first others -> ->. split.
    + intros ->. reflexivity.
    + intros items -> Hnone. cbn. now rewrite Hnone.
Qed.

Lemma fragment_loop_versions (activity_id : string) (step : Step) (hours : Q)
    (answers : list Answer) :
  forall (success : bool) (st : State),
  exists new,
    exchanges (snd (for_fold answers success (fragment activity_id step hours) st))
      = exchanges st ++ new /\
    forall i m,
      nth_error (submitted new) i = Some m ->
      msg_version m
      = if success && negb (forallb accepted (firstn i new))
        then (version st + 1) mod 2 else version st.
Proof.
  induction answers as [|a rest IH]; intros success st.
  - exists []. cbn. rewrite app_nil_r. split; [reflexivity|].
    intros [|i] m H; discriminate H.
  - cbn [for_fold]. unfold bind at 1.
    rewrite submit_fragment_spec.
    set (req := submission _ _ _ _ _ _ _ _ st hours [a]).
    set (rep := server (exchanges st) req).
    set (st1 := {| version := _ |}).
    destruct (IH (success && negb (has_errors (json_body rep))) st1)
      as (new & Hlog & Hver).
    exists ((req, rep) :: new). split.
    + rewrite Hlog. subst st1. cbn [exchanges]. now rewrite <- app_assoc.
    + intros [|i] m Hm.
      * cbn in Hm. injection Hm as <-. cbn. now rewrite andb_false_r.
      * cbn in Hm. fold (submitted new) in Hm. rewrite (Hver i m Hm).
        subst st1. cbn [version firstn forallb]. unfold accepted at 2.
        cbn [snd].
        destruct success, (has_errors (json_body rep)),
          (forallb accepted (firstn i new)); reflexivity.
Qed.

(** The versions the fragments of a vocabulary step carry.  The loop of
    lines 278-290 checks the replies only until the first rejection, so the
    version changes at most once in a step: fragment number [i] carries
    the version the step started with when every earlier reply of the step
    was accepted and the other version otherwise, and the step ends on the
    other version exactly when one of its replies was rejected. *)
Theorem one_flip_per_step (activity_id : string) (step : Step)
    (first : Content) (others : list Content) (items : list (list Card))
    (hours : Q) (st : State) :
  step_type step = "card" ->
  step_content step = first :: others ->
  additionalContent first = None ->
  carousel first = Some items ->
  let new := issued (complete_step activity_id step hours) st in
  version (snd (complete_step activity_id step hours st))
    = (if forallb accepted new then version st else (version st + 1) mod 2) /\
  forall i m,
    nth_error (submitted new) i = Some m ->
    msg_version m
    = if forallb accepted (firstn i new)
      then version st else (version st + 1) mod 2.
Proof.
  intros Htype Hcontent Hvideo Hcarousel new. subst new. unfold issued.
  rewrite (complete_step_fragmented server uuid4 now user_id token course_id
             lesson activity_id step _ hours st
             (format_answers_vocabulary step _ _ _ Htype Hcontent Hvideo
                Hcarousel) eq_refl).
  cbn [answers].
  destruct (py_div hours (length (map card_answer (concat items))))
    as [tta|e|c]; cbn [snd];
    try (rewrite skipn_all; cbn; split; [reflexivity|];
         intros [|i] m H; discriminate H).
  destruct (fragment_loop server uuid4 now user_id token course_id lesson
              activity_id step tta (map card_answer (concat items)) true st)
    as (new & _ & _ & Hlog & Hver).
  destruct (fragment_loop_versions activity_id step tta
              (map card_answer (concat items)) true st) as (new' & Hlog' & Hmsg).
  assert (new' = new) as -> by (apply (app_inv_head (exchanges st)); congruence).
  rewrite Hlog, skipn_length_app. split.
  - rewrite Hver. cbn [andb]. now destruct (forallb accepted new).
  - intros i m Hm. rewrite (Hmsg i m Hm). cbn [andb].
    now destruct (forallb accepted (firstn i new)).
Qed.

(** A lesson for which the server sends no usable list of activities stops
    after its one query, nothing submitted: with [KeyError] when the reply
    has no data, [TypeError] when the sequence is null, and
    [ZeroDivisionError] when the list of activities is empty. *)
Theorem lesson_without_activities (hours_per_lesson : Q) (st : State)
    (errors : option (list json)) :
  let query := GraphQL token (getSequence course_id (slug lesson) "en-US") in
  let rep := server (exchanges st) query in
  let run := complete_lesson hours_per_lesson course_id lesson st in
  (json_body rep = GraphQLBody None errors ->
   run = (Raises (KeyError "data"), logged st query rep)) /\
  (json_body rep = GraphQLBody (Some (SequenceData None)) errors ->
   run = (Raises TypeError, logged st query rep)) /\
  (json_body rep = GraphQLBody (Some (SequenceData (Some []))) errors ->
   run = (Raises ZeroDivisionError, logged st query rep)).
Proof.
  intros query rep run. subst run. unfold _complete_lesson.
  rewrite bind_post. fold query. fold rep. cbv zeta.
  repeat split; intros ->; reflexivity.
Qed.

End FurtherSteps.

(** ** The run as a sequence of moves *)

Lemma count_lessons_positive (courses : dict CourseInfo) :
  courses <> [] ->
  Forall (fun infos => lessons infos <> []) (dict_values courses) ->
  (1 <= count_lessons courses)%nat.
Proof.
  intros Hne Hall. rewrite count_lessons_length.
  destruct courses as [|[k infos] rest]; [contradiction|].
  inversion Hall as [|? ? Hinfos _]; subst. cbn in Hinfos |- *.
  rewrite length_app. destruct (lessons infos); [contradiction|cbn; lia].
Qed.

Lemma fetched_app (l1 l2 : list Exchange) :
  fetched (l1 ++ l2) = fetched l1 ++ fetched l2.
Proof. unfold fetched. apply flat_map_app. Qed.

Lemma attempt_ids_app (l1 l2 : list Exchange) :
  attempt_ids (l1 ++ l2) = attempt_ids l1 ++ attempt_ids l2.
Proof. unfold attempt_ids. rewrite submitted_app. apply flat_map_app. Qed.

Section FurtherRun.

Variable server : list Exchange -> Request -> Response.
Variable uniform : nat -> Q.
Variable uuid4 : nat -> string.
Variable now : nat -> string.
Variable py_float : string -> option Q.
Variable slugify : string -> string.

Section Session.

Variables user_id token : string.

Local Abbreviation move := (move server uuid4 now user_id token).
Local Abbreviation moves := (moves server uuid4 now user_id token).
Local Abbreviation reaches := (reaches server uuid4 now user_id token).

Lemma moves_trans (fetching : bool) (st1 st2 st3 : State) :
  moves fetching st1 st2 -> moves fetching st2 st3 -> moves fetching st1 st3.
Proof.
  intros H12 H23. induction H23 as [|st2 st3 st4 _ IH Hmove]; [exact H12|].
  eapply moves_more; [apply IH; exact H12 | exact Hmove].
Qed.

Lemma moves_fetching (st st' : State) :
  moves false st st' -> moves true st st'.
Proof.
  induction 1 as [|st st' st'' _ IH Hmove]; [apply moves_none|].
  eapply moves_more; [exact IH|].
  destruct Hmove as [st'|st' hours data flip|st' c s H];
    [apply move_draw | apply move_submit | discriminate H].
Qed.

Lemma reaches_ret {A : Type} (fetching : bool) (a : A) :
  reaches fetching (ret a).
Proof. intros st. apply moves_none. Qed.

Lemma reaches_lift {A : Type} (fetching : bool) (r : result A) :
  reaches fetching (lift r).
Proof. intros st. apply moves_none. Qed.

Lemma reaches_bind {A B : Type} (fetching : bool) (m : M A) (k : A -> M B) :
  reaches fetching m -> (forall a, reaches fetching (k a)) ->
  reaches fetching (bind m k).
Proof.
  intros Hm Hk st. unfold bind. specialize (Hm st).
  destruct (m st) as [[a|e|c] st1]; cbn [snd] in *; try exact Hm.
  eapply moves_trans; [exact Hm | apply Hk].
Qed.

Lemma reaches_for_each {X : Type} (fetching : bool) (xs : list X)
    (body : X -> M unit) :
  (forall x, reaches fetching (body x)) -> reaches fetching (for_each xs body).
Proof.
  intros H. induction xs as [|x xs IH]; cbn [for_each].
  - apply reaches_ret.
  - apply reaches_bind; [apply H | intros _; exact IH].
Qed.

Lemma reaches_for_fold {X A : Type} (fetching : bool) (xs : list X)
    (body : A -> X -> M A) :
  (forall acc x, reaches fetching (body acc x)) ->
  forall acc, reaches fetching (for_fold xs acc body).
Proof.
  intros H. induction xs as [|x xs IH]; intros acc; cbn [for_fold].
  - apply reaches_ret.
  - apply reaches_bind; [apply H | intros acc'; apply IH].
Qed.

Lemma _complete_step_reaches (course_id : string) (lesson : Lesson)
    (activity_id : string) (step : Step) (hours : Q) :
  reaches false
    (_complete_step server uuid4 now user_id token course_id lesson activity_id
       step hours).
Proof.
  intros st.
  destruct (format_answers step) as [[plan|]|e|c] eqn:Hplan;
    try (unfold _complete_step, bind, lift; rewrite Hplan; apply moves_none).
  destruct (fragmented plan) eqn:Hfrag.
  - rewrite (complete_step_fragmented server uuid4 now user_id token course_id
               lesson activity_id step plan hours st Hplan Hfrag).
    destruct (py_div hours (length (answers plan))) as [tta|e|c];
      try apply moves_none.
    apply reaches_for_fold. intros success answer st'.
    rewrite submit_fragment_spec. cbn [snd].
    eapply moves_more; [apply moves_none|].
    exact (move_submit server uuid4 now user_id token false st' tta
             (step_data user_id course_id lesson activity_id step [answer])
             (success && has_errors _)).
  - rewrite (complete_step_single server uuid4 now user_id token course_id
               lesson activity_id step plan hours st Hplan Hfrag).
    cbn [snd]. eapply moves_more; [apply moves_none|].
    exact (move_submit server uuid4 now user_id token false st hours
             (step_data user_id course_id lesson activity_id step
                (answers plan)) false).
Qed.

Lemma lesson_loops_reach (course_id : string) (lesson : Lesson) (share : Q)
    (activities : list Activity) :
  reaches false
    (for_each activities (fun activity =>
       for_each (steps activity)
         (run_step server uniform uuid4 now user_id token course_id lesson
            share activity))).
Proof.
  apply reaches_for_each. intros activity.
  apply reaches_for_each. intros step. unfold run_step.
  apply reaches_bind.
  - intros st. eapply moves_more; [apply moves_none | apply move_draw].
  - intros jitter. apply reaches_bind; [|intros _; apply reaches_ret].
    apply _complete_step_reaches.
Qed.

(** A lesson is its query followed by draws and submissions. *)
Lemma _complete_lesson_moves (hours_per_lesson : Q) (course_id : string)
    (lesson : Lesson) (st : State) :
  let query := GraphQL token (getSequence course_id (slug lesson) "en-US") in
  moves false (logged st query (server (exchanges st) query))
    (snd (_complete_lesson server uniform uuid4 now user_id token
            hours_per_lesson course_id lesson st)).
Proof.
  intros query. unfold _complete_lesson. rewrite bind_post. fold query.
  cbv zeta. fold (logged st query (server (exchanges st) query)).
  set (st1 := logged _ _ _).
  assert (H : reaches false
            (data <- lift (get_data (json_body (server (exchanges st) query))) ;;
             activities <- lift (get_activities data) ;;
             hours_per_activity <-
               lift (py_div hours_per_lesson (length activities)) ;;
             for_each activities (fun activity =>
               for_each (steps activity)
                 (run_step server uniform uuid4 now user_id token course_id
                    lesson hours_per_activity activity)))).
  { apply reaches_bind; [apply reaches_lift|]. intros data.
    apply reaches_bind; [apply reaches_lift|]. intros activities.
    apply reaches_bind; [apply reaches_lift|]. intros share.
    apply lesson_loops_reach. }
  exact (H st1).
Qed.

Lemma _complete_lesson_reaches (hours_per_lesson : Q) (course_id : string)
    (lesson : Lesson) :
  reaches true
    (_complete_lesson server uniform uuid4 now user_id token hours_per_lesson
       course_id lesson).
Proof.
  intros st. eapply moves_trans.
  - eapply moves_more; [apply moves_none|].
    exact (move_fetch server uuid4 now user_id token true st course_id
             (slug lesson) eq_refl).
  - apply moves_fetching. apply _complete_lesson_moves.
Qed.

(** What a sequence of moves leaves in the log. *)
Lemma moves_requests (fetching : bool) (st st' : State) :
  moves fetching st st' ->
  exists new,
    exchanges st' = exchanges st ++ new /\
    Forall (fun e => authorised user_id token (fst e)) new /\
    (fetching = false -> fetched new = []).
Proof.
  induction 1 as [st|st st' st'' _ (new & Hlog & Hauth & Hfetch) Hmove].
  - exists []. rewrite app_nil_r. repeat split; constructor.
  - destruct Hmove as [st'|st' hours data flip|st' c s Hf]; cbn [exchanges logged].
    + exists new. auto.
    + eexists (new ++ [_]). rewrite Hlog, <- app_assoc.
      split; [reflexivity|]. split.
      * apply Forall_app. split; [exact Hauth|].
        constructor; [cbn; auto | constructor].
      * intros Hf. rewrite fetched_app, (Hfetch Hf). reflexivity.
    + eexists (new ++ [_]). rewrite Hlog, <- app_assoc.
      split; [reflexivity|]. split.
      * apply Forall_app. split; [exact Hauth|].
        constructor; [cbn; auto | constructor].
      * intros Hf'. congruence.
Qed.

Lemma moves_ids (fetching : bool) (st st' : State) :
  moves fetching st st' ->
  exists new,
    exchanges st' = exchanges st ++ new /\
    uuid4_calls st' = (uuid4_calls st + length (attempt_ids new))%nat /\
    attempt_ids new
    = map uuid4 (seq (uuid4_calls st) (length (attempt_ids new))).
Proof.
  induction 1 as [st|st st' st'' _ (new & Hlog & Hcalls & Hids) Hmove].
  - exists []. rewrite app_nil_r. cbn. repeat split. lia.
  - destruct Hmove as [st'|st' hours data flip|st' c s Hf];
      cbn [exchanges uuid4_calls logged].
    + exists new. auto.
    + exists (new ++ [(req, server (exchanges st') req)]).
      rewrite Hlog, <- app_assoc.
      split; [reflexivity|]. rewrite attempt_ids_app, length_app.
      change (attempt_ids [(req, server (exchanges st ++ new) req)])
        with [uuid4 (uuid4_calls st'); uuid4 (S (uuid4_calls st'))].
      cbn [length]. split; [lia|].
      rewrite seq_app, map_app, <- Hids, <- Hcalls. reflexivity.
    + eexists (new ++ [_]). rewrite Hlog, <- app_assoc.
      split; [reflexivity|]. rewrite attempt_ids_app. cbn.
      rewrite app_nil_r. auto.
Qed.

Lemma moves_versions (fetching : bool) (st st' : State) :
  moves fetching st st' ->
  exists new,
    exchanges st' = exchanges st ++ new /\
    match submitted new with
    | [] => version st' = version st
    | m :: _ => msg_version m = version st
    end /\
    (version st = 0 \/ version st = 1 ->
     (version st' = 0 \/ version st' = 1) /\
     Forall (fun m => msg_version m = 0 \/ msg_version m = 1) (submitted new)).
Proof.
  induction 1 as [st|st st' st'' _ (new & Hlog & Hfirst & Hrange) Hmove].
  - exists []. rewrite app_nil_r. cbn. repeat split; auto.
  - destruct Hmove as [st'|st' hours data flip|st' c s Hf];
      cbn [exchanges version logged].
    + exists new. auto.
    + eexists (new ++ [_]). rewrite Hlog, <- app_assoc.
      split; [reflexivity|]. rewrite submitted_app.
      cbn [submitted flat_map fst messages_of app].
      split.
      * destruct (submitted new); cbn; [exact Hfirst | exact Hfirst].
      * intros Hst. destruct (Hrange Hst) as [Hst' Hall]. split.
        -- destruct flip; [|exact Hst'].
           pose proof (Z.mod_pos_bound (version st' + 1) 2 ltac:(lia)). lia.
        -- apply Forall_app. split; [exact Hall|].
           constructor; [exact Hst' | constructor].
    + eexists (new ++ [_]). rewrite Hlog, <- app_assoc.
      split; [reflexivity|]. rewrite submitted_app. cbn.
      rewrite app_nil_r. auto.
Qed.

End Session.

Local Abbreviation run_from :=
  (start server uniform uuid4 now slugify).

Lemma bind_still {A B : Type} (m : M A) (k : A -> M B) (st : State)
    (r : result A) :
  m st = (r, st) ->
  bind m k st = match r with
                | Returns a => k a st
                | Raises e => (Raises e, st)
                | Exits code => (Exits code, st)
                end.
Proof. intros H. unfold bind. now rewrite H. Qed.

(** A run is a prelude of one or two exchanges, the login and the
    discovery query, and, when both succeed, moves from a state whose
    version is 1. *)
Lemma start_moves (username password : string) (hours_todo threshold : Q)
    (st : State) :
  let login := TokenRequest username password in
  let rep := server (exchanges st) login in
  let run := run_from username password hours_todo threshold in
  exists prelude start_state,
    exchanges start_state = exchanges st ++ (login, rep) :: prelude /\
    uuid4_calls start_state = uuid4_calls st /\
    submitted prelude = [] /\
    (forall user_id token,
       json_body rep = TokenBody user_id token ->
       Forall (fun e => authorised user_id token (fst e)) prelude) /\
    (snd (run st) = start_state \/
     version start_state = 1 /\
     exists user_id token,
       json_body rep = TokenBody user_id token /\
       moves server uuid4 now user_id token true start_state (snd (run st))).
Proof.
  intros login rep run. subst run. unfold start, _authenticate.
  rewrite bind_assoc, bind_post. fold login. fold rep.
  fold (logged st login rep).
  destruct (negb (status_code rep =? 200)).
  { exists [], (logged st login rep). cbn. repeat split; auto. }
  cbv zeta.
  destruct (json_body rep) as [user_id token|data errors] eqn:Hbody.
  2:{ exists [], (logged st login rep). cbn. repeat split; auto. }
  cbn [get_userId get_access_token lift bind ret].
  unfold _get_courses. rewrite bind_assoc, bind_post. cbn [exchanges logged].
  set (query := GraphQL token (getCoursesAndProgress "fr-FR")).
  set (rep' := server (exchanges st ++ [(login, rep)]) query).
  set (st2 := {| version := _ |}).
  assert (Hlog2 : exchanges st2 = exchanges st ++ [(login, rep); (query, rep')]).
  { subst st2. cbn [exchanges]. now rewrite <- app_assoc. }
  assert (Hprelude : forall u t, TokenBody user_id token = TokenBody u t ->
            Forall (fun e => authorised u t (fst e)) [(query, rep')]).
  { intros u t [= <- <-]. repeat constructor. }
  assert (Hstop : forall final : State, final = st2 ->
            exists prelude start_state,
              exchanges start_state = exchanges st ++ (login, rep) :: prelude /\
              uuid4_calls start_state = uuid4_calls st /\
              submitted prelude = [] /\
              (forall u t, TokenBody user_id token = TokenBody u t ->
                 Forall (fun e => authorised u t (fst e)) prelude) /\
              (final = start_state \/
               version start_state = 1 /\
               exists u t, TokenBody user_id token = TokenBody u t /\
                 moves server uuid4 now u t true start_state final)).
  { intros final ->. exists [(query, rep')], st2. repeat split; auto. }
  set (discover := if negb (status_code rep' =? 200) then _ else _).
  assert (Hdiscover : exists r, discover st2 = (r, st2)).
  { subst discover. destruct (negb (status_code rep' =? 200));
      [eexists; reflexivity|].
    unfold bind, lift.
    destruct (get_data (json_body rep')) as [d|e|c]; try (eexists; reflexivity).
    destruct (get_progress d) as [p|e|c]; try (eexists; reflexivity).
    destruct (get_assignedCourses d) as [a|e|c]; try (eexists; reflexivity).
    destruct (Z.of_nat _ =? 0); eexists; reflexivity. }
  destruct Hdiscover as [r Hdiscover]. rewrite (bind_still _ _ _ _ Hdiscover).
  destruct r as [courses|e|c]; try (apply Hstop; reflexivity).
  rewrite (bind_still _ _ st2 (_calculate_hours hours_todo courses) eq_refl).
  destruct (_calculate_hours hours_todo courses) as [hours_per_lesson|e|c];
    try (apply Hstop; reflexivity).
  unfold bind at 1, set_version at 1.
  set (st3 := {| version := 1 |}).
  exists [(query, rep')], st3. repeat split; auto.
  right. split; [reflexivity|]. exists user_id, token. split; [reflexivity|].
  apply reaches_for_each. intros [course_id infos].
  apply reaches_for_each. intros lesson.
  apply _complete_lesson_reaches.
Qed.

Lemma issued_after (A : Type) (m : M A) (st base : State)
    (prelude new : list Exchange) :
  exchanges base = exchanges st ++ prelude ->
  exchanges (snd (m st)) = exchanges base ++ new ->
  issued m st = prelude ++ new.
Proof.
  intros Hbase Hlog. unfold issued.
  now rewrite Hlog, Hbase, <- app_assoc, skipn_length_app.
Qed.

Lemma NoDup_map_seq (f : nat -> string) (start len : nat) :
  (forall i j, f i = f j -> i = j) -> NoDup (map f (seq start len)).
Proof.
  intros Hinj. revert start. induction len as [|len IH]; intros start; cbn.
  - constructor.
  - constructor; [|apply IH]. intros Hin.
    apply in_map_iff in Hin as (j & Hj & Hin). apply Hinj in Hj. subst j.
    apply in_seq in Hin. lia.
Qed.

(** Every request of a run after the login is made on behalf of the session
    the token endpoint opened: it is a GraphQL request under the access
    token; and a submission names the user id of the session and carries
    exactly one message. *)
Theorem session_requests (username password : string)
    (hours_todo threshold : Q) (st : State) (user_id token : string) :
  let login := TokenRequest username password in
  let rep := server (exchanges st) login in
  json_body rep = TokenBody user_id token ->
  exists rest,
    issued (run_from username password hours_todo threshold) st
      = (login, rep) :: rest /\
    Forall (fun e => authorised user_id token (fst e)) rest.
Proof.
  intros login rep Hbody.
  destruct (start_moves username password hours_todo threshold st)
    as (prelude & base & Hbase & _ & _ & Hauth & Hrun).
  fold login in Hbase, Hrun. fold rep in Hbase, Hauth, Hrun.
  specialize (Hauth _ _ Hbody).
  destruct Hrun as [Hstop|(_ & u & t & Hbody' & Hmoves)].
  - exists prelude. split; [|exact Hauth].
    rewrite (issued_after _ _ st base ((login, rep) :: prelude) [] Hbase).
    + apply app_nil_r.
    + now rewrite Hstop, app_nil_r.
  - rewrite Hbody in Hbody'. injection Hbody' as <- <-.
    destruct (moves_requests _ _ _ _ _ Hmoves) as (new & Hlog & Hnew & _).
    exists (prelude ++ new). split; [|now apply Forall_app].
    exact (issued_after _ _ st base ((login, rep) :: prelude) new Hbase Hlog).
Qed.

(** The schema versions of a run.  Its first submission carries version 1,
    and every submission carries version 1 or version 0. *)
Theorem run_versions (username password : string) (hours_todo threshold : Q)
    (st : State) :
  let sent := submitted (issued (run_from username password hours_todo
                                   threshold) st) in
  Forall (fun m => msg_version m = 0 \/ msg_version m = 1) sent /\
  (forall m rest, sent = m :: rest -> msg_version m = 1).
Proof.
  intros sent. subst sent.
  destruct (start_moves username password hours_todo threshold st)
    as (prelude & base & Hbase & _ & Hquiet & _ & Hrun).
  destruct Hrun as [Hstop|(Hone & u & t & _ & Hmoves)].
  - rewrite (issued_after _ _ st base _ [] Hbase)
      by now rewrite Hstop, app_nil_r.
    rewrite app_nil_r. cbn [submitted flat_map fst messages_of app].
    fold (submitted prelude). rewrite Hquiet.
    split; [constructor | discriminate].
  - destruct (moves_versions _ _ _ _ _ Hmoves) as (new & Hlog & Hfirst & Hrange).
    rewrite (issued_after _ _ st base _ new Hbase Hlog).
    rewrite submitted_app. cbn [submitted flat_map fst messages_of app].
    fold (submitted prelude). fold (submitted new). rewrite Hquiet. cbn [app].
    split; [apply Hrange; now right|].
    intros m rest E. rewrite E in Hfirst. congruence.
Qed.

(** The attempt identifiers of a run are the successive values of [uuid4],
    two for each message, from the first draw of the run on; when [uuid4]
    never repeats a value, no identifier is used twice in a run. *)
Theorem attempt_ids_fresh (username password : string)
    (hours_todo threshold : Q) (st : State) :
  let ids := attempt_ids (issued (run_from username password hours_todo
                                    threshold) st) in
  ids = map uuid4 (seq (uuid4_calls st) (length ids)) /\
  length ids = (2 * length (submitted (issued (run_from username password
                                                 hours_todo threshold) st)))%nat /\
  ((forall i j, uuid4 i = uuid4 j -> i = j) -> NoDup ids).
Proof.
  intros ids.
  assert (Hlen : length ids
                 = (2 * length (submitted (issued (run_from username password
                                                     hours_todo threshold)
                                             st)))%nat).
  { subst ids. unfold attempt_ids.
    induction (submitted _) as [|m l IH]; cbn in *; lia. }
  assert (Hids : ids = map uuid4 (seq (uuid4_calls st) (length ids))).
  { subst ids.
    destruct (start_moves username password hours_todo threshold st)
      as (prelude & base & Hbase & Hcalls & Hquiet & _ & Hrun).
    assert (Hnone : attempt_ids ((TokenRequest username password,
                                  server (exchanges st)
                                    (TokenRequest username password))
                                 :: prelude) = []).
    { unfold attempt_ids. cbn [submitted flat_map fst messages_of app].
      fold (submitted prelude). now rewrite Hquiet. }
    destruct Hrun as [Hstop|(_ & u & t & _ & Hmoves)].
    - rewrite (issued_after _ _ st base _ [] Hbase)
        by now rewrite Hstop, app_nil_r.
      rewrite app_nil_r, Hnone. reflexivity.
    - destruct (moves_ids _ _ _ _ _ Hmoves) as (new & Hlog & _ & Hnew).
      rewrite (issued_after _ _ st base _ new Hbase Hlog).
      rewrite attempt_ids_app, Hnone. cbn [app]. now rewrite <- Hcalls. }
  split; [exact Hids|]. split; [exact Hlen|].
  intros Hinj. rewrite Hids. now apply NoDup_map_seq.
Qed.

(** Failed authentication.  A status other than 200 from the token
    endpoint ends the run through [exit(1)]; a 200 reply without the token
    fields ends it with [KeyError].  Either way the token request is the
    only request made. *)
Theorem authentication_failure (typed_id typed_pass typed_hours : string)
    (hours_todo threshold : Q) (st : State) :
  let login := TokenRequest typed_id typed_pass in
  let rep := server (exchanges st) login in
  let run := __init__ server uniform uuid4 now py_float slugify
               typed_id typed_pass typed_hours hours_todo threshold in
  (status_code rep <> 200 ->
   run st = (Exits 1, logged st login rep) /\ exit_status (fst (run st)) = 1) /\
  (status_code rep = 200 ->
   (forall user_id token, json_body rep <> TokenBody user_id token) ->
   run st = (Raises (KeyError "userId"), logged st login rep) /\
   exit_status (fst (run st)) = 1).
Proof.
  intros login rep run. subst run. unfold __init__, start, _authenticate.
  rewrite bind_assoc, bind_post. fold login. fold rep.
  fold (logged st login rep). split.
  - intros Hstatus. apply Z.eqb_neq in Hstatus. rewrite Hstatus. cbn.
    split; reflexivity.
  - intros Hstatus Hbody. rewrite Hstatus. cbn -[logged].
    destruct (json_body rep) as [u t|d e]; [destruct (Hbody u t eq_refl)|].
    cbn. split; reflexivity.
Qed.

(** Failed discovery.  Once authenticated, a status other than 200 for the
    discovery query ends the run through [exit(1)], and a 200 reply without
    data ends it with [KeyError]; the two requests of the prelude are the
    only ones made. *)
Theorem discovery_failure (typed_id typed_pass typed_hours : string)
    (hours_todo threshold : Q) (st : State) (user_id token : string)
    (errors : option (list json)) :
  let login := TokenRequest typed_id typed_pass in
  let rep := server (exchanges st) login in
  let query := GraphQL token (getCoursesAndProgress "fr-FR") in
  let rep' := server (exchanges st ++ [(login, rep)]) query in
  let run := __init__ server uniform uuid4 now py_float slugify
               typed_id typed_pass typed_hours hours_todo threshold in
  status_code rep = 200 ->
  json_body rep = TokenBody user_id token ->
  (status_code rep' <> 200 ->
   run st = (Exits 1, logged (logged st login rep) query rep')) /\
  (status_code rep' = 200 ->
   json_body rep' = GraphQLBody None errors ->
   run st = (Raises (KeyError "data"), logged (logged st login rep) query rep')).
Proof.
  intros login rep query rep' run Hstatus Hbody. subst run.
  unfold __init__, start, _authenticate.
  rewrite bind_assoc, bind_post. fold login. fold rep.
  rewrite Hstatus, Hbody. cbn -[_get_courses].
  split; [intros Hstatus'; apply Z.eqb_neq in Hstatus'|intros Hstatus' Hbody'];
    unfold bind at 1, _get_courses; rewrite bind_post;
    cbn [exchanges]; fold query; fold rep'.
  - rewrite Hstatus'. reflexivity.
  - rewrite Hstatus', Hbody'. reflexivity.
Qed.

End FurtherRun.

(** ** What a lesson submits, and the order of the lessons *)

Lemma plan_answers_correct (step : Step) (plan : Plan) :
  format_answers step = Returns (Some plan) ->
  Forall (fun a => correct a = true) (answers plan).
Proof.
  unfold format_answers. intros H.
  assert (Hmap : forall (X : Type) (f : X -> Answer) (l : list X),
            (forall x, correct (f x) = true) ->
            Forall (fun a => correct a = true) (map f l)).
  { intros X f l Hf. apply Forall_forall. intros a Ha.
    apply in_map_iff in Ha as (x & <- & _). apply Hf. }
  destruct (step_type step =? "card")%string.
  - destruct (step_content step) as [|first others]; [discriminate|].
    destruct (additionalContent first); [|destruct (carousel first)];
      try discriminate; injection H as <-; cbn; apply Hmap; reflexivity.
  - injection H as <-. cbn. apply Hmap. reflexivity.
Qed.

Lemma flat_map_single {X Y : Type} (f : X -> Y) (xs : list X) :
  flat_map (fun x => [f x]) xs = map f xs.
Proof. induction xs as [|x xs IH]; cbn; [reflexivity | now rewrite IH]. Qed.

Lemma follows_for_each {X : Type} (plan : X -> list (string * string))
    (xs : list X) (body : X -> M unit) :
  (forall x, follows (plan x) (body x)) ->
  follows (flat_map plan xs) (for_each xs body).
Proof.
  intros Hbody. induction xs as [|x xs IH]; intros st; cbn [for_each flat_map].
  - exists [], []. cbn. rewrite app_nil_r. auto.
  - unfold bind. destruct (Hbody x st) as (new & rest & Hlog & Hplan & Hdone).
    destruct (body x st) as [[[]|e|c] st1] eqn:Hrun; cbn [fst snd] in *.
    + rewrite (Hdone eq_refl), app_nil_r in Hplan.
      destruct (IH st1) as (new' & rest' & Hlog' & Hplan' & Hdone').
      exists (new ++ new'), rest'. rewrite Hlog', Hlog, fetched_app.
      rewrite Hplan, Hplan', !app_assoc. auto.
    + exists new, (rest ++ flat_map plan xs).
      rewrite Hplan, app_assoc. repeat split; auto. discriminate.
    + exists new, (rest ++ flat_map plan xs).
      rewrite Hplan, app_assoc. repeat split; auto. discriminate.
Qed.

Section FurtherLessons.

Variable server : list Exchange -> Request -> Response.
Variable uniform : nat -> Q.
Variable uuid4 : nat -> string.
Variable now : nat -> string.
Variable py_float : string -> option Q.
Variable slugify : string -> string.
Variables user_id token : string.

Lemma sent_fragments_shape (course_id : string) (lesson : Lesson)
    (activity_id : string) (step : Step) (hours : Q) (answers : list Answer)
    (new : list Exchange) :
  Forall2 (sent_fragment uuid4 now user_id token course_id lesson activity_id
             step hours) answers new ->
  Forall (fun m => exists st0 a,
            In a answers /\
            m = message_at uuid4 now st0 hours
                  (step_data user_id course_id lesson activity_id step [a]))
    (submitted new).
Proof.
  induction 1 as [|a e answers new [st0 He] _ IH]; [constructor|].
  unfold submitted. cbn [flat_map]. rewrite He. cbn [messages_of submission app].
  constructor.
  - exists st0, a. split; [now left | reflexivity].
  - revert IH. apply Forall_impl. intros m (st1 & b & Hb & ->).
    exists st1, b. split; [now right | reflexivity].
Qed.

(** Every message of a step is built by [_get_answer] from the identifiers
    of the call and from answers of the step's plan. *)
Lemma complete_step_shape (course_id : string) (lesson : Lesson)
    (activity_id : string) (step : Step) (hours : Q) :
  sends (fun m => exists plan st0 h listed,
           format_answers step = Returns (Some plan) /\
           m = message_at uuid4 now st0 h
                 (step_data user_id course_id lesson activity_id step listed) /\
           incl listed (answers plan))
    (_complete_step server uuid4 now user_id token course_id lesson activity_id
       step hours).
Proof.
  intros st.
  destruct (format_answers step) as [[plan|]|e|c] eqn:Hplan;
    try (exists []; unfold _complete_step, bind, lift; rewrite Hplan;
         cbn [snd]; rewrite app_nil_r; split; [reflexivity|constructor]).
  destruct (fragmented plan) eqn:Hfrag.
  - rewrite (complete_step_fragmented server uuid4 now user_id token course_id
               lesson activity_id step plan hours st Hplan Hfrag).
    destruct (py_div hours (length (answers plan))) as [tta|e|c];
      try (exists []; cbn [snd]; rewrite app_nil_r;
           split; [reflexivity|constructor]).
    destruct (fragment_loop server uuid4 now user_id token course_id lesson
                activity_id step tta (answers plan) true st)
      as (new & Hsent & _ & Hlog & _).
    exists new. split; [exact Hlog|].
    generalize (sent_fragments_shape _ _ _ _ _ _ _ Hsent).
    apply Forall_impl. intros m (st0 & a & Ha & ->).
    exists plan, st0, tta, [a]. repeat split.
    intros x [<-|[]]. exact Ha.
  - rewrite (complete_step_single server uuid4 now user_id token course_id
               lesson activity_id step plan hours st Hplan Hfrag).
    eexists. split; [reflexivity|]. cbn. constructor; [|constructor].
    exists plan, st, hours, (answers plan). repeat split. apply incl_refl.
Qed.

(** What a lesson submits.  Every message sent while a lesson runs names
    the course and the lesson, and an activity of the lesson with one of
    its steps; it carries the fixed user agent, score 1 and no skip; and
    its answers are answers of that step's plan, all marked correct. *)
Theorem payload_contents (hours_per_lesson : Q) (course_id : string)
    (lesson : Lesson) (st : State) (m : Message) :
  In m (submitted
          (issued (_complete_lesson server uniform uuid4 now user_id token
                     hours_per_lesson course_id lesson) st)) ->
  let rep := server (exchanges st)
               (GraphQL token (getSequence course_id (slug lesson) "en-US")) in
  (userAgent m, score m, skip m) = (USER_AGENT, 1, false) /\
  (msg_courseId m, msg_sequenceId m) = (course_id, lesson_id lesson) /\
  Forall (fun a => correct a = true) (msg_answers m) /\
  exists data activities activity step plan,
    get_data (json_body rep) = Returns data /\
    get_activities data = Returns activities /\
    In activity activities /\
    In step (steps activity) /\
    (msg_activityId m, msg_activityStepId m)
      = (activityId activity, activityStepId step) /\
    format_answers step = Returns (Some plan) /\
    incl (msg_answers m) (answers plan).
Proof.
  intros Hm rep. revert Hm.
  unfold issued, _complete_lesson. rewrite bind_post. fold rep.
  set (st1 := {| version := _ |}). cbv zeta.
  unfold bind at 1, lift at 1.
  destruct (get_data (json_body rep)) as [data|e|c];
    try (cbn; rewrite skipn_length_app; intros []).
  unfold bind at 1, lift at 1.
  destruct (get_activities data) as [activities|e|c] eqn:Hacts;
    try (cbn; rewrite skipn_length_app; intros []).
  unfold bind at 1, lift at 1.
  destruct (py_div hours_per_lesson (length activities)) as [share|e|c];
    try (cbn; rewrite skipn_length_app; intros []).
  set (P := fun m => exists activity step plan st0 h listed,
              In activity activities /\ In step (steps activity) /\
              format_answers step = Returns (Some plan) /\
              m = message_at uuid4 now st0 h
                    (step_data user_id course_id lesson (activityId activity)
                       step listed) /\
              incl listed (answers plan)).
  assert (Hloop : sends P
            (for_each activities (fun activity =>
               for_each (steps activity)
                 (run_step server uniform uuid4 now user_id token course_id
                    lesson share activity)))).
  { apply sends_for_each. intros activity Hactivity.
    apply sends_for_each. intros step Hstep. unfold run_step.
    apply sends_bind; [apply sends_quiet; reflexivity|]. intros jitter.
    apply sends_bind; [|intros _; apply sends_ret].
    eapply sends_weaken; [|apply complete_step_shape].
    intros x (plan & st0 & h & listed & Hplan & -> & Hincl).
    exists activity, step, plan, st0, h, listed. auto. }
  destruct (Hloop st1) as (new & Hlog & Hnew). rewrite Hlog.
  subst st1. cbn [exchanges]. rewrite <- app_assoc, skipn_length_app.
  rewrite submitted_app. cbn [submitted flat_map fst messages_of app].
  intros Hm. rewrite Forall_forall in Hnew.
  destruct (Hnew m Hm)
    as (activity & step & plan & st0 & h & listed & Ha & Hs & Hplan & -> & Hincl).
  cbn. repeat split.
  - pose proof (plan_answers_correct step plan Hplan) as Hall.
    rewrite Forall_forall in *. intros a Ha'. apply Hall, Hincl, Ha'.
  - exists data, activities, activity, step, plan. repeat split; auto.
Qed.

Lemma _complete_lesson_follows (hours_per_lesson : Q) (course_id : string)
    (lesson : Lesson) :
  follows [(course_id, slug lesson)]
    (_complete_lesson server uniform uuid4 now user_id token hours_per_lesson
       course_id lesson).
Proof.
  intros st.
  destruct (moves_requests _ _ _ _ _ _ _ _
              (_complete_lesson_moves server uniform uuid4 now user_id token
                 hours_per_lesson course_id lesson st))
    as (new & Hlog & _ & Hquiet).
  eexists (_ :: new), []. cbn [logged exchanges] in Hlog.
  rewrite Hlog, <- app_assoc. split; [reflexivity|].
  cbn [fetched flat_map fst]. fold (fetched new).
  rewrite (Hquiet eq_refl). auto.
Qed.

End FurtherLessons.

Section FurtherOrder.

Variable server : list Exchange -> Request -> Response.
Variable uniform : nat -> Q.
Variable uuid4 : nat -> string.
Variable now : nat -> string.
Variable slugify : string -> string.

(** Lessons are taken in the order of discovery.  After a successful
    login and discovery, the lessons the run asks the server for are, in
    order, the first lessons of the discovery result read course after
    course, each under the id of its course and the slug of its title; a
    run that returns has asked for all of them, once each. *)
Theorem lessons_in_order (username password : string)
    (hours_todo threshold : Q) (st : State) (user_id token : string)
    (assigned : list Course) (progress : list CourseProgress)
    (errors : option (list json)) :
  let login := TokenRequest username password in
  let rep := server (exchanges st) login in
  let query := GraphQL token (getCoursesAndProgress "fr-FR") in
  let rep' := server (exchanges st ++ [(login, rep)]) query in
  let run := start server uniform uuid4 now slugify username password
               hours_todo threshold in
  status_code rep = 200 ->
  json_body rep = TokenBody user_id token ->
  status_code rep' = 200 ->
  json_body rep'
    = GraphQLBody (Some (CoursesAndProgress assigned progress)) errors ->
  exists rest,
    planned (sort_courses slugify progress threshold assigned)
      = fetched (issued run st) ++ rest /\
    (fst (run st) = Returns tt -> rest = []).
Proof.
  intros login rep query rep' run Hstatus Hbody Hstatus' Hbody'.
  pose proof (sorted_nonempty slugify progress threshold assigned []
                (Forall_nil _)) as Hall.
  fold (sort_courses slugify progress threshold assigned) in Hall.
  remember (sort_courses slugify progress threshold assigned) as courses
    eqn:Hcourses.
  set (st2 := logged (logged st login rep) query rep').
  assert (Hrun : run st =
            match courses with
            | [] => (Exits 0, st2)
            | _ :: _ =>
                for_each courses (fun entry =>
                  let '(course_id, infos) := entry in
                  for_each (lessons infos)
                    (_complete_lesson server uniform uuid4 now user_id token
                       (fdiv hours_todo (float_of_nat (count_lessons courses)))
                       course_id))
                  {| version := 1; exchanges := exchanges st2;
                     uniform_calls := uniform_calls st;
                     uuid4_calls := uuid4_calls st;
                     now_calls := now_calls st |}
            end).
  { subst run. unfold start, _authenticate.
    rewrite bind_assoc, bind_post. fold login. fold rep.
    rewrite Hstatus, Hbody. cbn -[_get_courses].
    unfold bind at 1, _get_courses. rewrite bind_post.
    cbn [exchanges]. fold query. fold rep'.
    rewrite Hstatus', Hbody'. cbn -[sort_courses _calculate_hours for_each].
    rewrite <- Hcourses.
    destruct courses as [|entry others] eqn:E; [reflexivity|].
    cbn -[_calculate_hours for_each count_lessons].
    unfold _calculate_hours.
    rewrite py_div_returns
      by (apply count_lessons_positive; [discriminate | exact Hall]).
    reflexivity. }
  unfold issued. rewrite Hrun.
  destruct courses as [|entry others] eqn:E.
  - exists []. subst st2. cbn [fst snd exchanges logged].
    rewrite <- app_assoc, skipn_length_app. split; [reflexivity | auto].
  - rewrite <- E in *.
    set (loops := for_each courses _).
    assert (Hfollows : follows (planned courses) loops).
    { subst loops. unfold planned. apply follows_for_each.
      intros [course_id infos]. cbn [fst snd].
      rewrite <- flat_map_single. apply follows_for_each. intros lesson.
      apply _complete_lesson_follows. }
    set (st3 := {| version := 1 |}).
    destruct (Hfollows st3) as (new & rest & Hlog & Hplan & Hdone).
    assert (Hlog' : exchanges (snd (loops st3))
                    = exchanges st ++ (login, rep) :: (query, rep') :: new).
    { rewrite Hlog. subst st3 st2. cbn [exchanges logged].
      now rewrite <- !app_assoc. }
    exists rest. rewrite Hlog', skipn_length_app.
    split; [exact Hplan | exact Hdone].
Qed.

End FurtherOrder.

(** ** The further properties on the concrete run *)

Section FurtherConcrete.

Import Demo.

Lemma tally_injective (i j : nat) : tally i = tally j -> i = j.
Proof.
  revert j. induction i as [|i IH]; intros [|j] H; try discriminate H;
    [reflexivity|].
  injection H as H. f_equal. now apply IH.
Qed.

Local Abbreviation complete_step :=
  (_complete_step server uuid4 now "u1" "t1" "c1" lesson).
Local Abbreviation run :=
  (start server uniform uuid4 now slugify "me" "secret" 10%Q 0.2%Q).

Lemma format_answers_outcomes_witness :
  format_answers grammar = Returns None /\
  format_answers blank = Raises IndexError /\
  Forall (fun a => correct a = true) (answers words_plan) /\
  answers choice_plan = map right_answer (step_correct choice).
Proof.
  destruct (format_answers_outcomes grammar) as (Hnone & _).
  destruct (format_answers_outcomes blank) as (_ & Hraise & _).
  destruct (format_answers_outcomes words) as (_ & _ & _ & Hwords).
  destruct (format_answers_outcomes choice) as (_ & _ & _ & Hchoice).
  split; [|split; [|split]].
  - apply Hnone. split; [reflexivity|]. eexists. eexists.
    repeat split; reflexivity.
  - apply Hraise. repeat split; reflexivity.
  - apply (Hwords words_plan). reflexivity.
  - apply (Hchoice choice_plan); reflexivity.
Defined.

Lemma first_report_wins_witness :
  get_lesson_progress progress "c2" "l9" = 1%Q.
Proof.
  apply (first_report_wins
           [ {| cp_courseId := "c1";
                cp_sequences := [ {| sp_id := "l2"; percentComplete := 0.2 |};
                                  {| sp_id := "l3"; percentComplete := 0.9 |} ] |} ]
           []
           {| cp_courseId := "c2";
              cp_sequences := [ {| sp_id := "l9"; percentComplete := 1 |} ] |}
           [] [] {| sp_id := "l9"; percentComplete := 1 |} "c2" "l9").
  - intros c [<-|[]] H. discriminate H.
  - reflexivity.
  - reflexivity.
  - intros x [].
  - reflexivity.
Defined.

Lemma french_title_witness :
  get_activity_title
    {| activityId := "a1";
       titles := [ {| locale := "en-US"; text := "Quiz" |};
                   {| locale := "fr-FR"; text := "QCM" |} ];
       steps := [] |} = Some "QCM" /\
  get_activity_title {| activityId := "a2"; titles := []; steps := [words] |}
    = None.
Proof.
  split.
  - apply (proj1 (french_title _)
             [ {| locale := "en-US"; text := "Quiz" |} ]
             {| locale := "fr-FR"; text := "QCM" |} []);
      [reflexivity | | reflexivity].
    intros t [<-|[]]. discriminate.
  - apply (proj2 (french_title _)). intros t [].
Defined.


Lemma discovery_entries_witness :
  exists course,
    In course courses /\ courseId course = "c1" /\
    {| info_title := "Business";
       lessons := [ {| lesson_id := "l1"; lesson_title := "hello";
                       slug := "hello" |};
                    {| lesson_id := "l2"; lesson_title := "meeting";
                       slug := "meeting" |} ] |}
    = {| info_title := course_title course;
         lessons := lessons_to_do slugify progress 0.2 course |}.
Proof.
  destruct (discovery_entries slugify progress 0.2%Q courses) as (_ & _ & H).
  apply H. reflexivity.
Defined.

Lemma discovery_order_witness :
  NoDup (map courseId courses) /\
  sort_courses slugify progress 0.2 courses
  = map (fun course =>
           (courseId course,
            {| info_title := course_title course;
               lessons := map (new_lesson slugify)
                            (filter (fun lesson =>
                                       Qle_bool
                                         (get_lesson_progress progress
                                            (courseId course) (seq_id lesson))
                                         0.2)
                               (sequences course)) |}))
      (filter (fun course =>
                 existsb (fun lesson =>
                            Qle_bool
                              (get_lesson_progress progress (courseId course)
                                 (seq_id lesson))
                              0.2)
                   (sequences course))
         courses).
Proof.
  assert (Hnd : NoDup (map courseId courses)).
  { cbn. repeat constructor; cbn; intuition discriminate. }
  split; [exact Hnd|].
  exact (discovery_order slugify progress 0.2%Q courses Hnd).
Defined.


Lemma step_without_request_witness :
  complete_step "a1" blank 1%Q started = (Raises IndexError, started) /\
  complete_step "a1" grammar 1%Q started = (Raises TypeError, started) /\
  complete_step "a1" no_cards 1%Q started = (Raises ZeroDivisionError, started).
Proof.
  destruct (step_without_request server uuid4 now "u1" "t1" "c1" lesson "a1"
              blank 1%Q started eq_refl) as (Hblank & _).
  destruct (step_without_request server uuid4 now "u1" "t1" "c1" lesson "a1"
              grammar 1%Q started eq_refl) as (_ & Hgrammar).
  destruct (step_without_request server uuid4 now "u1" "t1" "c1" lesson "a1"
              no_cards 1%Q started eq_refl) as (_ & Hcards).
  split; [|split].
  - apply Hblank. reflexivity.
  - apply (Hgrammar _ [] eq_refl eq_refl). reflexivity.
  - apply (Hcards _ [] eq_refl eq_refl) with (items := [ [] ]); reflexivity.
Defined.

Lemma one_flip_per_step_witness :
  let new := issued (complete_step "a2" words 1%Q) started in
  version (snd (complete_step "a2" words 1%Q started))
    = (if forallb accepted new then version started
       else (version started + 1) mod 2) /\
  forall i m,
    nth_error (submitted new) i = Some m ->
    msg_version m
    = if forallb accepted (firstn i new)
      then version started else (version started + 1) mod 2.
Proof.
  apply (one_flip_per_step server uuid4 now "u1" "t1" "c1" lesson "a2" words
           {| additionalContent := None;
              carousel := Some [ [ {| card_id := "k1" |}; {| card_id := "k2" |} ];
                                 [ {| card_id := "k3" |} ] ] |}
           []
           [ [ {| card_id := "k1" |}; {| card_id := "k2" |} ];
             [ {| card_id := "k3" |} ] ]
           1%Q started); reflexivity.
Defined.

Lemma lesson_without_activities_witness :
  let query := GraphQL "t1" (getSequence "c1" "hello" "en-US") in
  _complete_lesson hollow_server uniform uuid4 now "u1" "t1" 5%Q "c1" lesson
    started
  = (Raises ZeroDivisionError,
     logged started query (hollow_server [] query)).
Proof.
  destruct (lesson_without_activities hollow_server uniform uuid4 now "u1" "t1"
              "c1" lesson 5%Q started None) as (_ & _ & H).
  apply H. reflexivity.
Defined.

Lemma session_requests_witness :
  exists rest,
    issued run boot
      = (TokenRequest "me" "secret", ok (TokenBody "u1" "t1")) :: rest /\
    Forall (fun e => authorised "u1" "t1" (fst e)) rest.
Proof.
  apply (session_requests server uniform uuid4 now slugify "me" "secret"
           10%Q 0.2%Q boot "u1" "t1").
  reflexivity.
Defined.

Lemma run_versions_witness :
  Forall (fun m => msg_version m = 0 \/ msg_version m = 1)
    (submitted (issued run boot)) /\
  msg_version first_payload = 1.
Proof.
  destruct (run_versions server uniform uuid4 now slugify "me" "secret"
              10%Q 0.2%Q boot) as (Hall & Hfirst).
  split; [exact Hall|].
  eapply (Hfirst first_payload). vm_compute. reflexivity.
Defined.

Lemma attempt_ids_fresh_witness :
  NoDup (attempt_ids
           (issued (start server uniform tally now slugify "me" "secret"
                      10%Q 0.2%Q) boot)).
Proof.
  destruct (attempt_ids_fresh server uniform tally now slugify "me" "secret"
              10%Q 0.2%Q boot) as (_ & _ & Hfresh).
  apply Hfresh. exact tally_injective.
Defined.

Lemma authentication_failure_witness :
  let login := TokenRequest "me" "wrong" in
  __init__ refusing_server uniform uuid4 now decimal slugify "me" "wrong" "10"
    20%Q 0.2%Q boot
  = (Exits 1, logged boot login (refusing_server [] login)) /\
  __init__ (fun _ _ => ok (GraphQLBody None None)) uniform uuid4 now decimal
    slugify "me" "wrong" "10" 20%Q 0.2%Q boot
  = (Raises (KeyError "userId"),
     logged boot login (ok (GraphQLBody None None))).
Proof.
  destruct (authentication_failure refusing_server uniform uuid4 now decimal
              slugify "me" "wrong" "10" 20%Q 0.2%Q boot) as (Hrefused & _).
  destruct (authentication_failure (fun _ _ => ok (GraphQLBody None None))
              uniform uuid4 now decimal slugify "me" "wrong" "10" 20%Q 0.2%Q
              boot) as (_ & Hbody).
  split.
  - apply Hrefused. discriminate.
  - apply Hbody; [reflexivity|]. intros u t. discriminate.
Defined.

Lemma discovery_failure_witness :
  let login := TokenRequest "me" "secret" in
  let query := GraphQL "t1" (getCoursesAndProgress "fr-FR") in
  __init__ down_server uniform uuid4 now decimal slugify "me" "secret" "10"
    20%Q 0.2%Q boot
  = (Exits 1,
     logged (logged boot login (ok (TokenBody "u1" "t1"))) query
       (down_server [] query)).
Proof.
  destruct (discovery_failure down_server uniform uuid4 now decimal slugify
              "me" "secret" "10" 20%Q 0.2%Q boot "u1" "t1" None
              eq_refl eq_refl) as (Hdown & _).
  apply Hdown. discriminate.
Defined.

Lemma payload_contents_witness :
  let rep := server [] (GraphQL "t1" (getSequence "c1" "hello" "en-US")) in
  (userAgent first_payload, score first_payload, skip first_payload)
    = (USER_AGENT, 1, false) /\
  (msg_courseId first_payload, msg_sequenceId first_payload)
    = ("c1", lesson_id lesson) /\
  Forall (fun a => correct a = true) (msg_answers first_payload) /\
  exists data activities activity step plan,
    get_data (json_body rep) = Returns data /\
    get_activities data = Returns activities /\
    In activity activities /\
    In step (steps activity) /\
    (msg_activityId first_payload, msg_activityStepId first_payload)
      = (activityId activity, activityStepId step) /\
    format_answers step = Returns (Some plan) /\
    incl (msg_answers first_payload) (answers plan).
Proof.
  apply (payload_contents server uniform uuid4 now "u1" "t1" 5%Q "c1" lesson
           started first_payload).
  vm_compute. left. reflexivity.
Defined.

Lemma lessons_in_order_witness :
  exists rest,
    planned (sort_courses slugify progress 0.2 courses)
      = fetched (issued run boot) ++ rest /\
    (fst (run boot) = Returns tt -> rest = []).
Proof.
  apply (lessons_in_order server uniform uuid4 now slugify "me" "secret"
           10%Q 0.2%Q boot "u1" "t1" courses progress None); reflexivity.
Defined.

End FurtherConcrete.
